(** * Enhanced tools and the learned-selector store of the browser MCP server

    A shallow embedding of [src/tools/enhanced.ts] (the five enhanced tools,
    their zod schemas, the in-memory [learnedSelectors] map and
    [formatElementText]) and of [src/resources/selectors.ts] (the
    [selectors://learned] resource), with the properties the specification
    states about them.

    Conventions.
    - A JavaScript string is a [string]; one [ascii] stands for one UTF-16
      code unit, so [String.length] is [.length] and [substring 0 n] is
      [.substring(0, n)].
    - A [Date] is its time value, the number of milliseconds since the
      epoch, as a [Z].
    - The module-level [Map] lives in a heap of map objects and is reached
      through its reference, so that two holders of the reference see the
      same object.
    - A handler is a computation in a state-and-exception monad over the
      [World]; the channel and the aria-snapshot routine, which are not part
      of these files, are the fields of an [Env]. *)

From Stdlib Require Import ZArith List Lia Bool Ascii String DecimalString.
From stdpp Require Import base option strings gmap.
Import ListNotations.

Local Open Scope Z_scope.
Set Warnings "-register-all".

(* ===================================================================== *)
(** ** JavaScript values and strings *)
(* ===================================================================== *)

Module Js.

(** The double quote and the line feed, as one-character strings. *)
Definition dq : string := String "034"%char EmptyString.
Definition nl : string := String "010"%char EmptyString.

(** A value as it travels over the channel or arrives as tool arguments.
    An object carries its own enumerable properties in creation order.  A
    number is kept as an integer; where one is written out it is written
    in decimal, as JavaScript writes an integer below 10^21. *)
Inductive Value : Type :=
| Undefined
| Null
| Bool (b : bool)
| Number (n : Z)
| Str (s : string)
| Array (items : list Value)
| Object (props : list (string * Value)).

(** [o[key]] on a list of own properties; an absent key reads [Undefined]. *)
Fixpoint get (props : list (string * Value)) (key : string) : Value :=
  match props with
  | [] => Undefined
  | (k, v) :: rest => if String.eqb k key then v else get rest key
  end.

(** [v.key] for a value [v] that is neither [null] nor [undefined]. *)
Definition prop (v : Value) (key : string) : Value :=
  match v with
  | Object props => get props key
  | _ => Undefined
  end.

(** [Array.isArray(v)]. *)
Definition isArray (v : Value) : bool :=
  match v with Array _ => true | _ => false end.

(** [typeof v]. *)
Definition typeof (v : Value) : string :=
  match v with
  | Undefined => "undefined"
  | Null => "object"
  | Bool _ => "boolean"
  | Number _ => "number"
  | Str _ => "string"
  | Array _ => "object"
  | Object _ => "object"
  end.

(** ToBoolean. *)
Definition truthy (v : Value) : bool :=
  match v with
  | Undefined | Null => false
  | Bool b => b
  | Number n => negb (n =? 0)
  | Str s => negb (String.eqb s EmptyString)
  | Array _ | Object _ => true
  end.

(** Truthiness of an optional string field ([undefined] or a string). *)
Definition truthyStr (o : option string) : bool :=
  match o with
  | Some s => negb (String.eqb s EmptyString)
  | None => false
  end.

(** Whether an object has the key among its own properties. *)
Definition hasOwn (props : list (string * Value)) (key : string) : bool :=
  existsb (fun e => String.eqb (fst e) key) props.

(** ToString, as a template literal applies it to the value it
    interpolates; [None] is a thrown [TypeError].  An array is joined with
    commas, [null] and [undefined] items giving nothing.  An object that
    arrived as data gives [[object Object]], unless it has a property
    [toString] of its own: that is no function, and the conversion to a
    primitive fails. *)
Fixpoint toString (v : Value) : option string :=
  match v with
  | Undefined => Some "undefined"
  | Null => Some "null"
  | Bool b => Some (if b then "true" else "false")
  | Number n => Some (NilEmpty.string_of_int (Z.to_int n))
  | Str s => Some s
  | Array items =>
      let fix joined (l : list Value) : option string :=
        match l with
        | [] => Some EmptyString
        | x :: rest =>
            match match x with
                  | Undefined | Null => Some EmptyString
                  | _ => toString x
                  end, joined rest with
            | Some s, Some r =>
                Some match rest with
                     | [] => s
                     | _ => (s ++ "," ++ r)%string
                     end
            | _, _ => None
            end
        end in
      joined items
  | Object props =>
      if hasOwn props "toString" then None else Some "[object Object]"
  end.

(** Decimal rendering of a non-negative integer, as in a template
    literal. *)
Definition natToString (n : nat) : string :=
  NilEmpty.string_of_uint (Nat.to_uint n).

(** [haystack.includes(needle)]. *)
Fixpoint includes (needle haystack : string) : bool :=
  String.prefix needle haystack
  || match haystack with
     | EmptyString => false
     | String _ rest => includes needle rest
     end.

End Js.

(* ===================================================================== *)
(** ** [Date.prototype.toISOString] *)
(* ===================================================================== *)

Module JsDate.

Definition msPerDay : Z := 86400000.

Definition digitChar (d : Z) : ascii := ascii_of_nat (48 + Z.to_nat d).

(** The [width] low decimal digits of [n], most significant first. *)
Fixpoint pad (width : nat) (n : Z) : string :=
  match width with
  | O => EmptyString
  | S w => (pad w (n / 10) ++ String (digitChar (n mod 10)) EmptyString)%string
  end.

(** Year, month (1..12) and day of month (1..31) of a day number counted
    from 1970-01-01, in the proleptic Gregorian calendar. *)
Definition civilFromDays (z : Z) : Z * Z * Z :=
  let z := z + 719468 in
  let era := z / 146097 in
  let doe := z - era * 146097 in
  let yoe := (doe - doe / 1460 + doe / 36524 - doe / 146096) / 365 in
  let y := yoe + era * 400 in
  let doy := doe - (365 * yoe + yoe / 4 - yoe / 100) in
  let mp := (5 * doy + 2) / 153 in
  let d := doy - (153 * mp + 2) / 5 + 1 in
  let m := if mp <? 10 then mp + 3 else mp - 9 in
  (if m <=? 2 then y + 1 else y, m, d).

(** Four digits for the years 0..9999, a sign and six digits otherwise. *)
Definition yearString (y : Z) : string :=
  if ((0 <=? y)%Z && (y <=? 9999)%Z)%bool then pad 4 y
  else ((if (y <? 0)%Z then "-" else "+") ++ pad 6 (Z.abs y))%string.

Definition toISOString (t : Z) : string :=
  let '(y, m, d) := civilFromDays (t / msPerDay) in
  let ms := t mod msPerDay in
  (yearString y ++ "-" ++ pad 2 m ++ "-" ++ pad 2 d ++ "T"
   ++ pad 2 (ms / 3600000) ++ ":" ++ pad 2 (ms / 60000 mod 60) ++ ":"
   ++ pad 2 (ms / 1000 mod 60) ++ "." ++ pad 3 (ms mod 1000) ++ "Z")%string.

(** The format of ECMAScript date-time strings, [YYYY-MM-DDTHH:mm:ss.sssZ]
    of ISO 8601 (with the expanded year [+YYYYYY] or [-YYYYYY] outside
    0..9999), every field in its calendar range. *)
Definition ISO8601 (s : string) : Prop :=
  exists Y M D h m sec ms : Z,
    1 <= M <= 12 /\ 1 <= D <= 31 /\
    0 <= h <= 23 /\ 0 <= m <= 59 /\ 0 <= sec <= 59 /\ 0 <= ms <= 999 /\
    s = (yearString Y ++ "-" ++ pad 2 M ++ "-" ++ pad 2 D ++ "T"
         ++ pad 2 h ++ ":" ++ pad 2 m ++ ":" ++ pad 2 sec ++ "."
         ++ pad 3 ms ++ "Z")%string.

(** The time values whose year has four digits:
    0000-01-01T00:00:00.000Z .. 9999-12-31T23:59:59.999Z. *)
Definition fourDigitYear (t : Z) : Prop :=
  -62167219200000 <= t <= 253402300799999.

End JsDate.

(* ===================================================================== *)
(** ** The zod schemas' [parse] *)
(* ===================================================================== *)

Module Zod.

(** [getParsedType]: the type names zod reports in an issue. *)
Inductive ParsedType : Type :=
| TUndefined | TNull | TBoolean | TNumber | TString | TArray | TObject.

Definition getParsedType (v : Js.Value) : ParsedType :=
  match v with
  | Js.Undefined => TUndefined
  | Js.Null => TNull
  | Js.Bool _ => TBoolean
  | Js.Number _ => TNumber
  | Js.Str _ => TString
  | Js.Array _ => TArray
  | Js.Object _ => TObject
  end.

(** An [invalid_type] issue: the only kind these schemas can raise. *)
Record Issue : Type := mkIssue {
  path : list string;
  expected : ParsedType;
  received : ParsedType
}.

Inductive ParseResult (A : Type) : Type :=
| Valid (a : A)
| Invalid (issues : list Issue).
Arguments Valid {A} a.
Arguments Invalid {A} issues.

(** [z.string()] and [z.boolean()] at a path. *)
Definition string_ (p : list string) (v : Js.Value) : ParseResult string :=
  match v with
  | Js.Str s => Valid s
  | _ => Invalid [mkIssue p TString (getParsedType v)]
  end.

Definition boolean (p : list string) (v : Js.Value) : ParseResult bool :=
  match v with
  | Js.Bool b => Valid b
  | _ => Invalid [mkIssue p TBoolean (getParsedType v)]
  end.

(** [.optional()]: [undefined] is accepted and stays [undefined]; no
    default is substituted. *)
Definition optional {A} (inner : list string -> Js.Value -> ParseResult A)
    (p : list string) (v : Js.Value) : ParseResult (option A) :=
  match v with
  | Js.Undefined => Valid None
  | _ => match inner p v with
         | Valid a => Valid (Some a)
         | Invalid errs => Invalid errs
         end
  end.

(** [z.object] parses every key of its shape, in shape order, and the
    issues of all of them accumulate in the one error context. *)
Definition ap {A B} (f : ParseResult (A -> B)) (x : ParseResult A)
    : ParseResult B :=
  match f, x with
  | Valid g, Valid a => Valid (g a)
  | Valid _, Invalid js => Invalid js
  | Invalid errs, Valid _ => Invalid errs
  | Invalid errs, Invalid js => Invalid (errs ++ js)
  end.

(** A value that is not an object fails as a whole, at the empty path. *)
Definition object {A} (shape : list (string * Js.Value) -> ParseResult A)
    (v : Js.Value) : ParseResult A :=
  match v with
  | Js.Object props => shape props
  | _ => Invalid [mkIssue [] TObject (getParsedType v)]
  end.

(** The parser of one key of an object shape. *)
Definition field {A} (inner : list string -> Js.Value -> ParseResult A)
    (key : string) (props : list (string * Js.Value)) : ParseResult A :=
  inner [key] (Js.get props key).

End Zod.

Infix "<*>" := Zod.ap (at level 61, left associativity).

(* ===================================================================== *)
(** ** [Map<string, V>] objects and the heap that holds them *)
(* ===================================================================== *)

Module JsMap.

Section Entries.
Context {V : Type}.

(** A map is the list of its entries, in insertion order. *)

Fixpoint has (m : list (string * V)) (key : string) : bool :=
  match m with
  | [] => false
  | (k, _) :: rest => String.eqb k key || has rest key
  end.

Fixpoint get (m : list (string * V)) (key : string) : option V :=
  match m with
  | [] => None
  | (k, v) :: rest => if String.eqb k key then Some v else get rest key
  end.

(** [m.set(key, value)]: an existing key keeps its place and takes the
    new value; a new key goes to the end. *)
Fixpoint set (m : list (string * V)) (key : string) (value : V)
    : list (string * V) :=
  match m with
  | [] => [(key, value)]
  | (k, v) :: rest =>
      if String.eqb k key then (k, value) :: rest
      else (k, v) :: set rest key value
  end.

Fixpoint delete (m : list (string * V)) (key : string)
    : list (string * V) :=
  match m with
  | [] => []
  | (k, v) :: rest =>
      if String.eqb k key then rest else (k, v) :: delete rest key
  end.

Definition size (m : list (string * V)) : nat := length m.

Definition keys (m : list (string * V)) : list string := map fst m.

(** How many entries carry the key. *)
Definition count (m : list (string * V)) (key : string) : nat :=
  length (List.filter (fun e => String.eqb (fst e) key) m).
End Entries.

End JsMap.

(** The value type of the store: [{ selector; notes?; timestamp }]. *)
Record LearnedSelector : Type := mkLearned {
  selector : string;
  notes : option string;
  timestamp : Z
}.

(** A reference to a map object. *)
Definition Ref : Type := positive.

Abbreviation Heap := (gmap positive (list (string * LearnedSelector))).

Module Heap.

(** The entries of the map a reference points to. *)
Definition read (r : Ref) (h : Heap) : list (string * LearnedSelector) :=
  default [] (h !! r).

(** [r.set(key, value)], [r.delete(key)], [r.clear()]: the object behind
    the reference changes, for every holder of the reference. *)
Definition set (r : Ref) (key : string) (value : LearnedSelector)
    (h : Heap) : Heap :=
  alter (fun m => JsMap.set m key value) r h.

Definition delete (r : Ref) (key : string) (h : Heap) : Heap :=
  alter (fun m => JsMap.delete m key) r h.

Definition clear (r : Ref) (h : Heap) : Heap :=
  alter (fun _ => []) r h.

End Heap.

(** What a holder of a map reference can do to it. *)
Inductive Mutation : Type :=
| MapSet (key : string) (value : LearnedSelector)
| MapDelete (key : string)
| MapClear.

Definition mutate (r : Ref) (mu : Mutation) (h : Heap) : Heap :=
  match mu with
  | MapSet key value => Heap.set r key value h
  | MapDelete key => Heap.delete r key h
  | MapClear => Heap.clear r h
  end.

(* ===================================================================== *)
(** ** The world of a handler, and the monad handlers run in *)
(* ===================================================================== *)

(** One block of a tool result's [content]. *)
Inductive ContentBlock : Type :=
| TextBlock (text : string)
| ImageBlock (data : Js.Value) (mimeType : string).

Record ToolResult : Type := mkResult { content : list ContentBlock }.

(** What a handler asks of its surroundings. *)
Inductive Event : Type :=
| SendSocketMessage (type : string) (payload : Js.Value)
| CaptureAriaSnapshot.

Inductive Error : Type :=
| ZodError (issues : list Zod.Issue)
| Rejected (reason : string)
| TypeError.

Inductive Outcome (A : Type) : Type :=
| Ok (a : A)
| Throw (e : Error).
Arguments Ok {A} a.
Arguments Throw {A} e.

(** The collaborators that are not part of these files: the channel behind
    [context.sendSocketMessage], the routine [captureAriaSnapshot] of
    [@/utils/aria-snapshot], and the clock behind [new Date()].  Each reply
    may depend on what the handler has asked so far. *)
Record Env : Type := mkEnv {
  channel : list Event -> string -> Js.Value -> Outcome Js.Value;
  ariaSnapshot : list Event -> Outcome ToolResult;
  clock : Z
}.

Record World : Type := mkWorld {
  heap : Heap;
  trace : list Event;
  console : list string
}.

Definition M (A : Type) : Type := Env -> World -> Outcome A * World.

Definition ret {A} (a : A) : M A := fun _ w => (Ok a, w).

Definition throw {A} (e : Error) : M A := fun _ w => (Throw e, w).

Definition bind {A B} (c : M A) (k : A -> M B) : M B :=
  fun env w =>
    match c env w with
    | (Ok a, w') => k a env w'
    | (Throw e, w') => (Throw e, w')
    end.

(** [try { body } catch (error) { handler }]. *)
Definition tryCatch {A} (body : M A) (handler : Error -> M A) : M A :=
  fun env w =>
    match body env w with
    | (Ok a, w') => (Ok a, w')
    | (Throw e, w') => handler e env w'
    end.

Notation "x <- c ;; k" := (bind c (fun x => k))
  (at level 100, c at next level, right associativity).
Notation "c ;;; k" := (bind c (fun _ => k))
  (at level 100, right associativity).

Definition record_ (ev : Event) (w : World) : World :=
  mkWorld (heap w) (trace w ++ [ev]) (console w).

(** [await context.sendSocketMessage(type, payload)]. *)
Definition sendSocketMessage (type : string) (payload : Js.Value)
    : M Js.Value :=
  fun env w =>
    (channel env (trace w) type payload,
     record_ (SendSocketMessage type payload) w).

(** [await captureAriaSnapshot(context)]. *)
Definition captureAriaSnapshot : M ToolResult :=
  fun env w => (ariaSnapshot env (trace w), record_ CaptureAriaSnapshot w).

(** [console.error(label, error)]. *)
Definition consoleError (label : string) : M unit :=
  fun _ w => (Ok tt, mkWorld (heap w) (trace w) (console w ++ [label])).

(** [new Date()]. *)
Definition newDate : M Z := fun env w => (Ok (clock env), w).

(** The value of an expression that may throw a [TypeError]. *)
Definition evaluate {A} (value : option A) : M A :=
  match value with
  | Some a => ret a
  | None => throw TypeError
  end.

(** [schema.parse(params)]: the parsed value, or a thrown [ZodError] with
    every issue found. *)
Definition parse {A} (schema : Js.Value -> Zod.ParseResult A)
    (params : Js.Value) : M A :=
  match schema params with
  | Zod.Valid a => ret a
  | Zod.Invalid issues => throw (ZodError issues)
  end.

(** Reading and writing a map object through a reference. *)
Definition mapEntries (r : Ref) : M (list (string * LearnedSelector)) :=
  fun _ w => (Ok (Heap.read r (heap w)), w).

Definition mapSet (r : Ref) (key : string) (value : LearnedSelector)
    : M unit :=
  fun _ w => (Ok tt, mkWorld (Heap.set r key value (heap w)) (trace w) (console w)).

(* ===================================================================== *)
(** ** [src/tools/enhanced.ts]: schemas *)
(* ===================================================================== *)

Record EnumerateElementsArgs : Type := mkEnumerateArgs {
  includeHidden : option bool
}.

Record ClickBySelectorArgs : Type := mkClickArgs {
  click_selector : string;
  click_description : option string
}.

Record TeachSelectorArgs : Type := mkTeachArgs {
  actionDescription : string;
  teach_selector : string;
  teach_notes : option string
}.

Record EnhancedSnapshotArgs : Type := mkEnhancedArgs {
  includeElements : option bool
}.

Module EnumerateElementsSchema.
Definition name : string := "browser_enumerate_elements".
Definition arguments : Js.Value -> Zod.ParseResult EnumerateElementsArgs :=
  Zod.object (fun props =>
    Zod.Valid mkEnumerateArgs
    <*> Zod.field (Zod.optional Zod.boolean) "includeHidden" props).
End EnumerateElementsSchema.

Module ClickBySelectorSchema.
Definition name : string := "browser_click_by_selector".
Definition arguments : Js.Value -> Zod.ParseResult ClickBySelectorArgs :=
  Zod.object (fun props =>
    Zod.Valid mkClickArgs
    <*> Zod.field Zod.string_ "selector" props
    <*> Zod.field (Zod.optional Zod.string_) "description" props).
End ClickBySelectorSchema.

Module TeachSelectorSchema.
Definition name : string := "browser_teach_selector".
Definition arguments : Js.Value -> Zod.ParseResult TeachSelectorArgs :=
  Zod.object (fun props =>
    Zod.Valid mkTeachArgs
    <*> Zod.field Zod.string_ "actionDescription" props
    <*> Zod.field Zod.string_ "selector" props
    <*> Zod.field (Zod.optional Zod.string_) "notes" props).
End TeachSelectorSchema.

Module GetLearnedSelectorsSchema.
Definition name : string := "browser_get_learned_selectors".
End GetLearnedSelectorsSchema.

Module EnhancedSnapshotSchema.
Definition name : string := "browser_enhanced_snapshot".
Definition arguments : Js.Value -> Zod.ParseResult EnhancedSnapshotArgs :=
  Zod.object (fun props =>
    Zod.Valid mkEnhancedArgs
    <*> Zod.field (Zod.optional Zod.boolean) "includeElements" props).
End EnhancedSnapshotSchema.

(* ===================================================================== *)
(** ** [src/tools/enhanced.ts]: element data and its formatter *)
(* ===================================================================== *)

(** [interface ElementData]. *)
Module ElementData.
Record t : Type := mk {
  tag : string;
  text : option string;
  selector : string;
  id : option string;
  classes : option string;
  type : option string;
  role : option string;
  ariaLabel : option string
}.
End ElementData.

(** The typed view of an array item that is what [interface ElementData]
    declares (see [wellTypedElement] below): its fields as the record has
    them.  The cast [rawElements as ElementData[]] is not checked when the
    program runs; what the formatter does with any item whatever is
    [formatElementUnchecked]. *)
Definition optField (v : Js.Value) (key : string) : option string :=
  match Js.prop v key with
  | Js.Str s => Some s
  | _ => None
  end.

Definition asElementData (v : Js.Value) : ElementData.t :=
  ElementData.mk
    (default EmptyString (optField v "tag"))
    (optField v "text")
    (default EmptyString (optField v "selector"))
    (optField v "id")
    (optField v "classes")
    (optField v "type")
    (optField v "role")
    (optField v "ariaLabel").

(** [elements.forEach((el, index) => ...)] over an accumulator. *)
Fixpoint forEachIndexed {A T : Type} (f : A -> nat -> T -> T)
    (elements : list A) (index : nat) (acc : T) : T :=
  match elements with
  | [] => acc
  | el :: rest => forEachIndexed f rest (S index) (f el index acc)
  end.

(** The quoted preview of an element's text: at most 50 characters, then
    the marker if something was cut. *)
Definition preview (s : string) : string :=
  let truncated := String.substring 0 50 s in
  " - " +:+ Js.dq +:+ truncated
  +:+ (if (50 <? String.length s)%nat then "..." else EmptyString)
  +:+ Js.dq.

(** [if (value) text += `\n   - Label: ${value}`]. *)
Definition detailLine (label : string) (value : option string) : string :=
  match value with
  | Some v =>
      if Js.truthyStr value then Js.nl +:+ "   - " +:+ label +:+ ": " +:+ v
      else EmptyString
  | None => EmptyString
  end.

(** The body of the [forEach] callback: what one element adds to [text]. *)
Definition formatElement (includeDetails : bool) (el : ElementData.t)
    (index : nat) (text : string) : string :=
  let text :=
    text +:+ Js.natToString (index + 1) +:+ ". **"
    +:+ (if Js.truthyStr (Some (ElementData.tag el)) then ElementData.tag el
         else "element")
    +:+ "**" in
  let text :=
    match ElementData.text el with
    | Some s => if Js.truthyStr (Some s) then text +:+ preview s else text
    | None => text
    end in
  let text :=
    if includeDetails then
      text +:+ Js.nl +:+ "   - CSS Selector: `" +:+ ElementData.selector el
      +:+ "`"
      +:+ detailLine "ID" (ElementData.id el)
      +:+ detailLine "Classes" (ElementData.classes el)
      +:+ detailLine "Type" (ElementData.type el)
      +:+ detailLine "Role" (ElementData.role el)
    else
      text +:+ " (`" +:+ ElementData.selector el +:+ "`)" in
  text +:+ Js.nl.

Definition formatElementText (elements : list ElementData.t)
    (includeDetails : bool) : string :=
  if (length elements =? 0)%nat then "No interactive elements found." +:+ Js.nl
  else forEachIndexed (formatElement includeDetails) elements 0%nat EmptyString.

(** *** The formatter on the items of a reply, as they come

    The handlers pass the items of the page's reply to [formatElementText]
    under a cast that nothing checks.  What follows is the same function
    body on values that need not be what the interface declares: a field
    is tested for truthiness and interpolated by [ToString] whatever it is,
    [el.text.substring] exists on strings only, and no property can be read
    from [null] or [undefined].  [None] is a thrown [TypeError]. *)

(** [if (value) text += `\n   - Label: ${value}`]. *)
Definition detailLineUnchecked (label : string) (value : Js.Value)
    : option string :=
  if Js.truthy value then
    match Js.toString value with
    | Some v => Some (Js.nl +:+ "   - " +:+ label +:+ ": " +:+ v)
    | None => None
    end
  else Some EmptyString.

Definition formatElementUnchecked (includeDetails : bool) (el : Js.Value)
    (index : nat) (text : string) : option string :=
  match el with
  | Js.Undefined | Js.Null => None
  | _ =>
    match (if Js.truthy (Js.prop el "tag") then Js.toString (Js.prop el "tag")
           else Some "element") with
    | None => None
    | Some tag =>
      let text :=
        text +:+ Js.natToString (index + 1) +:+ ". **" +:+ tag +:+ "**" in
      match (if Js.truthy (Js.prop el "text") then
               match Js.prop el "text" with
               | Js.Str s => Some (text +:+ preview s)
               | _ => None
               end
             else Some text) with
      | None => None
      | Some text =>
        match Js.toString (Js.prop el "selector") with
        | None => None
        | Some selector =>
          if includeDetails then
            match detailLineUnchecked "ID" (Js.prop el "id"),
                  detailLineUnchecked "Classes" (Js.prop el "classes"),
                  detailLineUnchecked "Type" (Js.prop el "type"),
                  detailLineUnchecked "Role" (Js.prop el "role") with
            | Some idLine, Some classesLine, Some typeLine, Some roleLine =>
                Some ((text +:+ Js.nl +:+ "   - CSS Selector: `" +:+ selector
                       +:+ "`" +:+ idLine +:+ classesLine +:+ typeLine
                       +:+ roleLine) +:+ Js.nl)
            | _, _, _, _ => None
            end
          else Some ((text +:+ " (`" +:+ selector +:+ "`)") +:+ Js.nl)
        end
      end
    end
  end.

Fixpoint forEachUnchecked (includeDetails : bool) (elements : list Js.Value)
    (index : nat) (text : string) : option string :=
  match elements with
  | [] => Some text
  | el :: rest =>
      match formatElementUnchecked includeDetails el index text with
      | Some text => forEachUnchecked includeDetails rest (S index) text
      | None => None
      end
  end.

Definition formatElementTextUnchecked (elements : list Js.Value)
    (includeDetails : bool) : option string :=
  if (length elements =? 0)%nat
  then Some ("No interactive elements found." +:+ Js.nl)
  else forEachUnchecked includeDetails elements 0%nat EmptyString.

(** A value is a string, resp. a string or [undefined]. *)
Definition isString (v : Js.Value) : bool :=
  match v with Js.Str _ => true | _ => false end.

Definition isOptionalString (v : Js.Value) : bool :=
  match v with Js.Str _ | Js.Undefined => true | _ => false end.

(** An item that is what [interface ElementData] declares, in the fields
    the formatter reads: an object with strings [tag] and [selector] and
    with [text], [id], [classes], [type] and [role] strings or absent. *)
Definition wellTypedElement (v : Js.Value) : bool :=
  match v with
  | Js.Object props =>
      isString (Js.get props "tag")
      && isOptionalString (Js.get props "text")
      && isString (Js.get props "selector")
      && isOptionalString (Js.get props "id")
      && isOptionalString (Js.get props "classes")
      && isOptionalString (Js.get props "type")
      && isOptionalString (Js.get props "role")
  | _ => false
  end.

(** Two ways in which an item breaks the formatter: it is [null] or
    [undefined], or its [text] is truthy and no string. *)
Definition breaksFormatter (v : Js.Value) : bool :=
  match v with
  | Js.Undefined | Js.Null => true
  | _ => Js.truthy (Js.prop v "text") && negb (isString (Js.prop v "text"))
  end.

(* ===================================================================== *)
(** ** [src/tools/enhanced.ts]: the store and the five handlers *)
(* ===================================================================== *)

(** [const learnedSelectors = new Map(...)]: the one map object of the
    module, allocated when the module is loaded. *)
Definition learnedSelectors : Ref := 1%positive.

Definition initialWorld : World :=
  mkWorld {[ learnedSelectors := [] ]} [] [].

(** [export function getLearnedSelectorsMap() { return learnedSelectors; }] *)
Definition getLearnedSelectorsMap (_ : unit) : Ref := learnedSelectors.

Definition itemsOf (v : Js.Value) : list Js.Value :=
  match v with Js.Array items => items | _ => [] end.

(** [Array.isArray(rawElements) && rawElements.length > 0] *)
Definition nonEmptyArray (v : Js.Value) : bool :=
  Js.isArray v && (0 <? length (itemsOf v))%nat.

Module enumerateElements.
Definition handle (params : Js.Value) : M ToolResult :=
  validatedParams <- parse EnumerateElementsSchema.arguments params ;;
  rawElements <- sendSocketMessage "browser_enumerate_elements"
    (Js.Object
       [("includeHidden",
         Js.Bool (default false (includeHidden validatedParams)))]) ;;
  let text := "## Enumerated Interactive Elements" +:+ Js.nl +:+ Js.nl in
  text <-
    (if nonEmptyArray rawElements then
       let elements := itemsOf rawElements in
       listing <- evaluate (formatElementTextUnchecked elements true) ;;
       ret (text +:+ listing)
     else
       let text :=
         text +:+ "No interactive elements found or enumeration not supported."
         +:+ Js.nl in
       ret (if Js.truthy rawElements
               && String.eqb (Js.typeof rawElements) "object" then
              text +:+ "Note: Received data of type " +:+ Js.typeof rawElements
              +:+ " - extension may need to implement this handler." +:+ Js.nl
            else text)) ;;
  ret (mkResult [TextBlock text]).
End enumerateElements.

Module clickBySelector.
Definition handle (params : Js.Value) : M ToolResult :=
  validatedParams <- parse ClickBySelectorSchema.arguments params ;;
  sendSocketMessage "browser_click_by_selector"
    (Js.Object [("selector", Js.Str (click_selector validatedParams))]) ;;;
  snapshot <- captureAriaSnapshot ;;
  ret (mkResult
    (TextBlock
       ("Clicked element with selector: " +:+ click_selector validatedParams
        +:+ match click_description validatedParams with
            | Some d =>
                if Js.truthyStr (Some d) then " (" +:+ d +:+ ")"
                else EmptyString
            | None => EmptyString
            end)
     :: content snapshot)).
End clickBySelector.

(** The first characters of the confirmation line, byte for byte as the
    source file has them. *)
Definition confirmationMark : string :=
  String "195" (String "162" (String "197" (String "147"
    (String "226" (String "128" (String "156" EmptyString)))))).

Module teachSelector.
Definition handle (params : Js.Value) : M ToolResult :=
  validatedParams <- parse TeachSelectorSchema.arguments params ;;
  now <- newDate ;;
  mapSet learnedSelectors (actionDescription validatedParams)
    (mkLearned (teach_selector validatedParams)
               (teach_notes validatedParams) now) ;;;
  ret (mkResult
    [TextBlock
       (confirmationMark +:+ " Learned selector for " +:+ Js.dq
        +:+ actionDescription validatedParams +:+ Js.dq +:+ ": `"
        +:+ teach_selector validatedParams +:+ "`"
        +:+ match teach_notes validatedParams with
            | Some n =>
                if Js.truthyStr (Some n) then Js.nl +:+ "  Notes: " +:+ n
                else EmptyString
            | None => EmptyString
            end)]).
End teachSelector.

Module getLearnedSelectors.
Definition nothingTaught : string :=
  "No selectors have been taught yet." +:+ Js.nl +:+ Js.nl.

Definition teachHint : string :=
  "Use the `browser_teach_selector` tool to teach the model which selectors to use for specific actions.".

(** The body of [learnedSelectors.forEach((value, key) => ...)]. *)
Definition bullet (key : string) (value : LearnedSelector) : string :=
  let text := "- **" +:+ key +:+ "**" +:+ Js.nl in
  let text := text +:+ "  - Selector: `" +:+ selector value +:+ "`" +:+ Js.nl in
  let text :=
    match notes value with
    | Some n =>
        if Js.truthyStr (Some n) then text +:+ "  - Notes: " +:+ n +:+ Js.nl
        else text
    | None => text
    end in
  text +:+ "  - Taught: " +:+ JsDate.toISOString (timestamp value) +:+ Js.nl.

Definition handle (_params : Js.Value) : M ToolResult :=
  let text := "## Learned CSS Selectors" +:+ Js.nl +:+ Js.nl in
  stored <- mapEntries learnedSelectors ;;
  let text :=
    if (JsMap.size stored =? 0)%nat then
      text +:+ nothingTaught +:+ teachHint
    else
      fold_left (fun text '(key, value) => text +:+ bullet key value)
        stored text in
  ret (mkResult [TextBlock text]).
End getLearnedSelectors.

Module enhancedSnapshot.
Definition handle (params : Js.Value) : M ToolResult :=
  validatedParams <- parse EnhancedSnapshotSchema.arguments params ;;
  screenshot <- sendSocketMessage "browser_screenshot" (Js.Object []) ;;
  snapshot <- captureAriaSnapshot ;;
  let content := ImageBlock screenshot "image/png" :: content snapshot in
  content <-
    (if default false (includeElements validatedParams) then
       tryCatch
         (rawElements <- sendSocketMessage "browser_enumerate_elements"
            (Js.Object [("includeHidden", Js.Bool false)]) ;;
          let elementsText := Js.nl +:+ "## Interactive Elements" +:+ Js.nl
                              +:+ Js.nl in
          elementsText <-
            (if nonEmptyArray rawElements then
               let elements := itemsOf rawElements in
               listing <- evaluate (formatElementTextUnchecked elements false) ;;
               ret (elementsText +:+ listing)
             else
               ret (elementsText +:+ "No interactive elements found."
                    +:+ Js.nl)) ;;
          ret (content ++ [TextBlock elementsText]))
         (fun error =>
            consoleError "Failed to enumerate elements:" ;;;
            ret content)
     else ret content) ;;
  ret (mkResult content).
End enhancedSnapshot.

(* ===================================================================== *)
(** ** Plain objects used as records: assignment and key order *)
(* ===================================================================== *)

Module JsObject.

(** [o[key] = value] on an object created by [{}], given as its own
    properties in creation order.  An existing key keeps its place.  The
    key [__proto__] is the accessor inherited from [Object.prototype]: the
    assignment reaches its setter and creates no own property. *)
Fixpoint define (o : list (string * Js.Value)) (key : string)
    (value : Js.Value) : list (string * Js.Value) :=
  match o with
  | [] => [(key, value)]
  | (k, v) :: rest =>
      if String.eqb k key then (k, value) :: rest
      else (k, v) :: define rest key value
  end.

Definition assign (o : list (string * Js.Value)) (key : string)
    (value : Js.Value) : list (string * Js.Value) :=
  if String.eqb key "__proto__" then o else define o key value.

Definition isDigit (c : ascii) : bool :=
  let n := nat_of_ascii c in ((48 <=? n) && (n <=? 57))%nat.

Fixpoint digitsValue (s : string) (acc : N) : option N :=
  match s with
  | EmptyString => Some acc
  | String c rest =>
      if isDigit c
      then digitsValue rest (10 * acc + N.of_nat (nat_of_ascii c - 48))%N
      else None
  end.

(** The array index a property key denotes, if any: a canonical decimal
    numeral below 2^32 - 1. *)
Definition arrayIndex (key : string) : option N :=
  match key with
  | EmptyString => None
  | String c rest =>
      if Ascii.eqb c "0" && negb (String.eqb rest EmptyString) then None
      else if (10 <? String.length key)%nat then None
      else match digitsValue key 0%N with
           | Some n => if (n <? 4294967295)%N then Some n else None
           | None => None
           end
  end.

Section Order.
Context {V : Type}.

Fixpoint insertByIndex (n : N) (e : string * V)
    (sorted : list (N * (string * V))) : list (N * (string * V)) :=
  match sorted with
  | [] => [(n, e)]
  | (m, e') :: rest =>
      if (n <? m)%N then (n, e) :: sorted
      else (m, e') :: insertByIndex n e rest
  end.

Fixpoint indexed (props : list (string * V)) : list (N * (string * V)) :=
  match props with
  | [] => []
  | (k, v) :: rest =>
      match arrayIndex k with
      | Some n => insertByIndex n (k, v) (indexed rest)
      | None => indexed rest
      end
  end.

Definition named (props : list (string * V)) : list (string * V) :=
  List.filter (fun e => match arrayIndex (fst e) with
                   | Some _ => false
                   | None => true
                   end) props.

(** The order in which own properties are enumerated: array indices in
    ascending order, then the other keys in creation order. *)
Definition ownProperties (props : list (string * V)) : list (string * V) :=
  map snd (indexed props) ++ named props.
End Order.

End JsObject.

(* ===================================================================== *)
(** ** [JSON.stringify(value, null, 2)] *)
(* ===================================================================== *)

Module JSON.

Definition hexDigit (n : nat) : ascii :=
  if (n <? 10)%nat then ascii_of_nat (48 + n) else ascii_of_nat (87 + n).

(** One code unit of a quoted string. *)
Definition quoteChar (c : ascii) : string :=
  let n := nat_of_ascii c in
  if (n =? 34)%nat then "\" +:+ Js.dq
  else if (n =? 92)%nat then "\\"
  else if (n =? 8)%nat then "\b"
  else if (n =? 12)%nat then "\f"
  else if (n =? 10)%nat then "\n"
  else if (n =? 13)%nat then "\r"
  else if (n =? 9)%nat then "\t"
  else if (n <? 32)%nat then
    "\u00" +:+ String (hexDigit (n / 16)) (String (hexDigit (n mod 16)) EmptyString)
  else String c EmptyString.

Fixpoint quoteBody (s : string) : string :=
  match s with
  | EmptyString => EmptyString
  | String c rest => quoteChar c +:+ quoteBody rest
  end.

(** [QuoteJSONString]. *)
Definition quote (s : string) : string := Js.dq +:+ quoteBody s +:+ Js.dq.

Fixpoint join (sep : string) (parts : list string) : string :=
  match parts with
  | [] => EmptyString
  | [p] => p
  | p :: rest => p +:+ sep +:+ join sep rest
  end.

Definition gap : string := "  ".

(** The members of an object that are written: a property whose value
    serializes to [undefined] is left out. *)
Fixpoint written (props : list (string * option string)) : list string :=
  match props with
  | [] => []
  | (k, Some s) :: rest => (quote k +:+ ": " +:+ s) :: written rest
  | (_, None) :: rest => written rest
  end.

Definition block (open close indent : string) (parts : list string)
    : string :=
  match parts with
  | [] => open +:+ close
  | _ =>
      let inner := indent +:+ gap in
      open +:+ Js.nl +:+ inner +:+ join ("," +:+ Js.nl +:+ inner) parts
      +:+ Js.nl +:+ indent +:+ close
  end.

(** [SerializeJSONProperty] at the current indentation; [None] is
    [undefined]. *)
Fixpoint serialize (indent : string) (v : Js.Value) : option string :=
  match v with
  | Js.Undefined => None
  | Js.Null => Some "null"
  | Js.Bool b => Some (if b then "true" else "false")
  | Js.Number n => Some (NilEmpty.string_of_int (Z.to_int n))
  | Js.Str s => Some (quote s)
  | Js.Array items =>
      let fix elements (l : list Js.Value) : list string :=
        match l with
        | [] => []
        | x :: rest =>
            default "null" (serialize (indent +:+ gap) x) :: elements rest
        end in
      Some (block "[" "]" indent (elements items))
  | Js.Object props =>
      let fix members (l : list (string * Js.Value))
          : list (string * option string) :=
        match l with
        | [] => []
        | (k, x) :: rest => (k, serialize (indent +:+ gap) x) :: members rest
        end in
      Some (block "{" "}" indent
              (written (JsObject.ownProperties (members props))))
  end.

Definition stringify (v : Js.Value) : option string :=
  serialize EmptyString v.

End JSON.

(* ===================================================================== *)
(** ** [src/resources/selectors.ts] *)
(* ===================================================================== *)

Record ResourceResult : Type := mkResource {
  uri : string;
  mimeType : string;
  resourceText : option string
}.

Module createSelectorsResource.

(** The object literal [{ selector, notes, timestamp }] of one entry. *)
Definition entryObject (value : LearnedSelector) : Js.Value :=
  Js.Object
    [("selector", Js.Str (selector value));
     ("notes", match notes value with
               | Some n => Js.Str n
               | None => Js.Undefined
               end);
     ("timestamp", Js.Str (JsDate.toISOString (timestamp value)))].

(** [selectors.forEach((value, key) => { data[key] = {...} })] from
    [data = {}]. *)
Definition collect (stored : list (string * LearnedSelector))
    : list (string * Js.Value) :=
  fold_left (fun data '(key, value) =>
               JsObject.assign data key (entryObject value))
    stored [].

Definition read (getLearnedSelectors : unit -> Ref) (_uri : string)
    : M (list ResourceResult) :=
  let selectors := getLearnedSelectors tt in
  stored <- mapEntries selectors ;;
  let data := collect stored in
  ret [mkResource "selectors://learned" "application/json"
         (JSON.stringify (Js.Object data))].

End createSelectorsResource.

(** The resource as the server wires it: over the tools module's getter. *)
Definition selectorsResource_read (uri : string) : M (list ResourceResult) :=
  createSelectorsResource.read getLearnedSelectorsMap uri.

(* ===================================================================== *)
(** ** Sequences of operations *)
(* ===================================================================== *)

(** One thing a client can ask for. *)
Inductive Operation : Type :=
| Enumerate (params : Js.Value)
| ClickBySelector (params : Js.Value)
| Teach (params : Js.Value)
| GetLearned (params : Js.Value)
| EnhancedSnapshot (params : Js.Value)
| ReadResource (uri : string).

(** The world after an operation, whether it returned or threw. *)
Definition after (op : Operation) (env : Env) (w : World) : World :=
  match op with
  | Enumerate params => snd (enumerateElements.handle params env w)
  | ClickBySelector params => snd (clickBySelector.handle params env w)
  | Teach params => snd (teachSelector.handle params env w)
  | GetLearned params => snd (getLearnedSelectors.handle params env w)
  | EnhancedSnapshot params => snd (enhancedSnapshot.handle params env w)
  | ReadResource uri => snd (selectorsResource_read uri env w)
  end.

(** The worlds the server can be in: the one at start-up and those any
    operation, under any behaviour of the collaborators, leads to. *)
Inductive reachable : World -> Prop :=
| reachable_initial : reachable initialWorld
| reachable_after (op : Operation) (env : Env) (w : World) :
    reachable w -> reachable (after op env w).

(** The contents of the store. *)
Definition store (w : World) : list (string * LearnedSelector) :=
  Heap.read learnedSelectors (heap w).

(** The arguments of a teach call. *)
Definition teachParams (description target : string) (notes : option string)
    : Js.Value :=
  Js.Object
    (("actionDescription", Js.Str description)
     :: ("selector", Js.Str target)
     :: match notes with
        | Some n => [("notes", Js.Str n)]
        | None => []
        end).

(* ===================================================================== *)
(** ** Vocabulary of the properties *)
(* ===================================================================== *)

(** What a mutation does to the entries of the map it is applied to. *)
Definition applyMutation (mu : Mutation)
    (m : list (string * LearnedSelector)) : list (string * LearnedSelector) :=
  match mu with
  | MapSet key value => JsMap.set m key value
  | MapDelete key => JsMap.delete m key
  | MapClear => []
  end.

(** The reading of the specification under which the view handed out by
    the getter is a snapshot: whatever a caller does to it, the store keeps
    its contents. *)
Definition viewIsSnapshot : Prop :=
  forall (w : World) (mu : Mutation),
    reachable w ->
    Heap.read learnedSelectors
      (mutate (getLearnedSelectorsMap tt) mu (heap w))
    = Heap.read learnedSelectors (heap w).

(** The store invariant: the map object exists and no key occurs twice. *)
Definition storeWellFormed (w : World) : Prop :=
  heap w !! learnedSelectors = Some (store w) /\ List.NoDup (JsMap.keys (store w)).

(** The lines of the elements of a list, numbered from [index + 1]. *)
Definition linesFrom (includeDetails : bool) (index : nat)
    (elements : list ElementData.t) : string :=
  forEachIndexed (formatElement includeDetails) elements index EmptyString.

(** What precedes and what follows the preview on an element's line. *)
Definition elementHead (el : ElementData.t) (index : nat) : string :=
  Js.natToString (index + 1) +:+ ". **"
  +:+ (if Js.truthyStr (Some (ElementData.tag el)) then ElementData.tag el
       else "element")
  +:+ "**".

Definition elementTail (includeDetails : bool) (el : ElementData.t)
    : string :=
  (if includeDetails then
     Js.nl +:+ "   - CSS Selector: `" +:+ ElementData.selector el +:+ "`"
     +:+ detailLine "ID" (ElementData.id el)
     +:+ detailLine "Classes" (ElementData.classes el)
     +:+ detailLine "Type" (ElementData.type el)
     +:+ detailLine "Role" (ElementData.role el)
   else " (`" +:+ ElementData.selector el +:+ "`)")
  +:+ Js.nl.

Definition ellipsis : string := "...".

(** The output of the enumerate tool for an empty array. *)
Definition emptyEnumeration : string :=
  "## Enumerated Interactive Elements" +:+ Js.nl +:+ Js.nl
  +:+ "No interactive elements found or enumeration not supported." +:+ Js.nl
  +:+ "Note: Received data of type object - extension may need to implement this handler."
  +:+ Js.nl.

Definition listingHeader : string :=
  "## Learned CSS Selectors" +:+ Js.nl +:+ Js.nl.

(** The notes line of a bullet. *)
Definition notesLine (value : LearnedSelector) : string :=
  match notes value with
  | Some n =>
      if Js.truthyStr (Some n) then "  - Notes: " +:+ n +:+ Js.nl
      else EmptyString
  | None => EmptyString
  end.

(** The bullets of a list of records, one after the other. *)
Fixpoint bullets (stored : list (string * LearnedSelector)) : string :=
  match stored with
  | [] => EmptyString
  | (key, value) :: rest => getLearnedSelectors.bullet key value +:+ bullets rest
  end.

(** A member [key: text] of a JSON object, and the text of an object of
    the second level of the resource document with the given members. *)
Definition jsonMember (key text : string) : string :=
  JSON.quote key +:+ ": " +:+ text.

Definition entryJson (members : list string) : string :=
  JSON.block "{" "}" JSON.gap members.

(** The text of the resource document with the given members. *)
Definition documentJson (members : list string) : string :=
  JSON.block "{" "}" EmptyString members.

(** The JSON text of one record of the resource document. *)
Definition entryText (value : LearnedSelector) : string :=
  entryJson
    ([jsonMember "selector" (JSON.quote (selector value))]
     ++ match notes value with
        | Some n => [jsonMember "notes" (JSON.quote n)]
        | None => []
        end
     ++ [jsonMember "timestamp"
           (JSON.quote (JsDate.toISOString (timestamp value)))]).

(** The resource result for a document text. *)
Definition learnedResource (text : string) : list ResourceResult :=
  [mkResource "selectors://learned" "application/json" (Some text)].

(** The issue zod raises for a required string that is missing. *)
Definition requiredString (key : string) : Zod.Issue :=
  Zod.mkIssue [key] Zod.TString Zod.TUndefined.

Definition enumerateMessage (hidden : bool) : Event :=
  SendSocketMessage "browser_enumerate_elements"
    (Js.Object [("includeHidden", Js.Bool hidden)]).

Definition screenshotMessage : Event :=
  SendSocketMessage "browser_screenshot" (Js.Object []).

Definition clickMessage (target : string) : Event :=
  SendSocketMessage "browser_click_by_selector"
    (Js.Object [("selector", Js.Str target)]).

(** An element's line whose preview shows [shown] between the quotes. *)
Definition lineShowing (includeDetails : bool) (el : ElementData.t)
    (index : nat) (shown : string) : string :=
  elementHead el index +:+ " - " +:+ Js.dq +:+ shown +:+ Js.dq
  +:+ elementTail includeDetails el.

(** A listing in which [line] is the line of the element that follows the
    elements [before] and precedes the elements [after]. *)
Definition listingAround (includeDetails : bool)
    (before : list ElementData.t) (line : string)
    (after : list ElementData.t) : string :=
  linesFrom includeDetails 0 before +:+ line
  +:+ linesFrom includeDetails (S (length before)) after.

(** ** Sample surroundings and inputs *)

(** No page is connected: every call to the page is rejected. *)
Definition offline (now : Z) : Env :=
  mkEnv (fun _ _ _ => Throw (Rejected "No connection to browser extension"))
        (fun _ => Throw (Rejected "No connection to browser extension"))
        now.

(** A page that takes screenshots and aria snapshots but has no handler
    for the enumeration. *)
Definition pageWithoutEnumeration : Env :=
  mkEnv (fun _ type _ =>
           if String.eqb type "browser_screenshot" then Ok (Js.Str "iVBORw0KGgo=")
           else Throw (Rejected "Unknown message type"))
        (fun _ => Ok (mkResult [TextBlock "- document"]))
        1700000000123.

(** A page without interactive elements. *)
Definition emptyPage : Env :=
  mkEnv (fun _ _ _ => Ok (Js.Array []))
        (fun _ => Ok (mkResult [TextBlock "- document"]))
        1700000000123.

Definition fiftyCharacters : string :=
  "Continue to the checkout and review your order now".

Definition fiftyOneCharacters : string :=
  "Continue to the checkout and review your order now!".

Definition buttonWith (label : string) : ElementData.t :=
  ElementData.mk "button" (Some label) "#go" None None None None None.

(* ===================================================================== *)
(** ** Vocabulary of the further properties *)
(* ===================================================================== *)

(** The world after a series of operations, each under its own
    surroundings. *)
Definition afterAll (steps : list (Operation * Env)) (w : World) : World :=
  fold_left (fun w step => after (fst step) (snd step) w) steps w.

(** The operation is a teach call whose arguments pass validation and name
    the description. *)
Definition teaches (description : string) (op : Operation) : Prop :=
  match op with
  | Teach params =>
      exists args : TeachSelectorArgs,
        TeachSelectorSchema.arguments params = Zod.Valid args
        /\ actionDescription args = description
  | _ => False
  end.

(** The description an operation teaches, if it is a teach call whose
    arguments pass validation. *)
Definition taughtDescription (op : Operation) : option string :=
  match op with
  | Teach params =>
      match TeachSelectorSchema.arguments params with
      | Zod.Valid args => Some (actionDescription args)
      | Zod.Invalid _ => None
      end
  | _ => None
  end.

(** The descriptions seen so far, in the order of their first teaching,
    after one more operation. *)
Definition noteTaught (seen : list string) (step : Operation * Env)
    : list string :=
  match taughtDescription (fst step) with
  | Some description =>
      if existsb (String.eqb description) seen then seen
      else seen ++ [description]
  | None => seen
  end.

Definition taughtOnto (seen : list string) (steps : list (Operation * Env))
    : list string :=
  fold_left noteTaught steps seen.

(** An optional field with the empty string taken as absent. *)
Definition absentIfEmpty (o : option string) : option string :=
  match o with
  | Some s => if String.eqb s EmptyString then None else Some s
  | None => None
  end.

(** An element without its empty fields and without its aria label. *)
Definition withoutBlanks (el : ElementData.t) : ElementData.t :=
  ElementData.mk (ElementData.tag el) (absentIfEmpty (ElementData.text el))
    (ElementData.selector el) (absentIfEmpty (ElementData.id el))
    (absentIfEmpty (ElementData.classes el))
    (absentIfEmpty (ElementData.type el))
    (absentIfEmpty (ElementData.role el)) None.

(** The tag, the text and the selector of an element, and nothing else. *)
Definition essentials (el : ElementData.t) : ElementData.t :=
  ElementData.mk (ElementData.tag el) (ElementData.text el)
    (ElementData.selector el) None None None None None.

(** A key that is neither an array index nor [__proto__]. *)
Definition plainKey (key : string) : Prop :=
  JsObject.arrayIndex key = None /\ key <> "__proto__".

(** The member of the resource document for an entry of the store. *)
Definition documentMember (entry : string * LearnedSelector) : string :=
  jsonMember (fst entry) (entryText (snd entry)).

Definition enumerationHeading : string :=
  "## Enumerated Interactive Elements" +:+ Js.nl +:+ Js.nl.

Definition nothingEnumerated : string :=
  "No interactive elements found or enumeration not supported." +:+ Js.nl.

Definition unexpectedDataNote : string :=
  "Note: Received data of type object - extension may need to implement this handler."
  +:+ Js.nl.

Definition elementsHeading : string :=
  Js.nl +:+ "## Interactive Elements" +:+ Js.nl +:+ Js.nl.

Definition enumerationFailureLabel : string := "Failed to enumerate elements:".

(** A reply that is neither an array nor a plain object. *)
Definition notAnObject (v : Js.Value) : Prop :=
  match v with
  | Js.Array _ | Js.Object _ => False
  | _ => True
  end.

(** A page with two interactive elements. *)
Definition twoElements : Js.Value :=
  Js.Array
    [Js.Object [("tag", Js.Str "button"); ("text", Js.Str "Login");
                ("selector", Js.Str "#login")];
     Js.Object [("tag", Js.Str "a"); ("selector", Js.Str "a.help")]].

Definition pageWithTwoElements : Env :=
  mkEnv (fun _ type _ =>
           if String.eqb type "browser_enumerate_elements" then Ok twoElements
           else Ok (Js.Str "iVBORw0KGgo="))
        (fun _ => Ok (mkResult [TextBlock "- document"]))
        1700000000123.


(** A page whose second element is [null], and one whose element has a
    number as its text. *)
Definition elementsWithNull : Js.Value :=
  Js.Array
    [Js.Object [("tag", Js.Str "a"); ("selector", Js.Str "a.help")];
     Js.Null].

Definition elementWithNumericText : Js.Value :=
  Js.Array
    [Js.Object [("tag", Js.Str "a"); ("text", Js.Number 5);
                ("selector", Js.Str "a.help")]].

Definition pageAnswering (reply : Js.Value) : Env :=
  mkEnv (fun _ type _ =>
           if String.eqb type "browser_enumerate_elements" then Ok reply
           else Ok (Js.Str "iVBORw0KGgo="))
        (fun _ => Ok (mkResult [TextBlock "- document"]))
        1700000000123.

(** A series that teaches two descriptions, one of them twice. *)
Definition teachingSeries : list (Operation * Env) :=
  [(Teach (teachParams "login" "#a" None), offline 1);
   (Teach (teachParams "search" "#q" (Some "top bar")), offline 2);
   (Enumerate (Js.Object []), emptyPage);
   (Teach (teachParams "login" "#b" None), offline 3);
   (Teach Js.Null, offline 4)].

(** A store with a record under [login btn] and one under [__proto__]. *)
Definition worldWithProto : World :=
  after (Teach (teachParams "__proto__" "#p" None)) (offline 2)
    (after (Teach (teachParams "login btn" "#a" (Some "n1"))) (offline 1)
       initialWorld).
(* ===================================================================== *)
(** * Properties *)
(* ===================================================================== *)

(** ** Dates *)

Example toISOString_epoch :
  JsDate.toISOString 0 = "1970-01-01T00:00:00.000Z"%string.
Proof. reflexivity. Qed.

Example toISOString_2023 :
  JsDate.toISOString 1700000000123 = "2023-11-14T22:13:20.123Z"%string.
Proof. reflexivity. Qed.

Example toISOString_leap_day :
  JsDate.toISOString 951782400000 = "2000-02-29T00:00:00.000Z"%string.
Proof. reflexivity. Qed.

Example toISOString_before_epoch :
  JsDate.toISOString (-1) = "1969-12-31T23:59:59.999Z"%string.
Proof. reflexivity. Qed.

Ltac divlia := Z.div_mod_to_equations; lia.

Lemma civil_ranges (z : Z) :
  let '(y, m, d) := JsDate.civilFromDays z in
  1 <= m <= 12 /\ 1 <= d <= 31 /\
  (-719528 <= z <= 2932896 -> 0 <= y <= 9999).
Proof.
  unfold JsDate.civilFromDays.
  set (z' := z + 719468).
  set (era := z' / 146097).
  set (doe := z' - era * 146097).
  set (yoe := (doe - doe / 1460 + doe / 36524 - doe / 146096) / 365).
  set (doy := doe - (365 * yoe + yoe / 4 - yoe / 100)).
  set (mp := (5 * doy + 2) / 153).
  set (d := doy - (153 * mp + 2) / 5 + 1).
  set (m := if mp <? 10 then mp + 3 else mp - 9).
  assert (Hdoe : 0 <= doe <= 146096) by (subst doe era; divlia).
  assert (Hyoe : 0 <= yoe <= 399) by (subst yoe; divlia).
  assert (Hdoy : 0 <= doy <= 365) by (subst doy yoe; divlia).
  assert (Hmp : 0 <= mp <= 11) by (subst mp; divlia).
  assert (Hd : 1 <= d <= 31) by (subst d mp; divlia).
  assert (Hm : 1 <= m <= 12) by (subst m; destruct (mp <? 10) eqn:E; lia).
  split; [exact Hm|]. split; [exact Hd|].
  intros Hz.
  assert (Hera : -1 <= era <= 24) by (subst era z'; divlia).
  assert (Hlo : era = -1 -> yoe = 399 /\ (m <=? 2) = true).
  { intros He.
    assert (Hdoe' : 146037 <= doe) by (subst doe z'; lia).
    assert (Hyo : yoe = 399) by (subst yoe; divlia).
    split; [exact Hyo|].
    assert (Hdoy' : 306 <= doy) by (subst doy; rewrite Hyo; divlia).
    assert (Hmp' : 10 <= mp) by (subst mp; divlia).
    subst m. destruct (mp <? 10) eqn:E'; lia. }
  assert (Hhi : era = 24 -> yoe = 399 -> (m <=? 2) = false).
  { intros He Hyo.
    assert (Hdoe' : doe <= 146036) by (subst doe z'; lia).
    assert (Hdoy' : doy <= 305) by (subst doy; rewrite Hyo; divlia).
    assert (Hmp' : mp <= 9) by (subst mp; divlia).
    subst m. destruct (mp <? 10) eqn:E'; lia. }
  destruct (m <=? 2) eqn:E; lia.
Qed.

Lemma toISOString_ISO8601 (t : Z) : JsDate.ISO8601 (JsDate.toISOString t).
Proof.
  unfold JsDate.ISO8601, JsDate.toISOString.
  pose proof (civil_ranges (t / JsDate.msPerDay)) as Hc.
  destruct (JsDate.civilFromDays (t / JsDate.msPerDay)) as [[y m] d].
  destruct Hc as (Hm & Hd & _).
  unfold JsDate.msPerDay in *.
  exists y, m, d, (t mod 86400000 / 3600000), (t mod 86400000 / 60000 mod 60),
    (t mod 86400000 / 1000 mod 60), (t mod 86400000 mod 1000).
  repeat split; try lia; divlia.
Qed.

Lemma toISOString_four_digit_year (t : Z) :
  JsDate.fourDigitYear t ->
  exists rest : string,
    String.length (JsDate.toISOString t) = 24%nat /\
    JsDate.toISOString t
    = (JsDate.pad 4 (fst (fst (JsDate.civilFromDays (t / JsDate.msPerDay))))
       ++ rest)%string.
Proof.
  unfold JsDate.fourDigitYear, JsDate.toISOString. intros Ht.
  pose proof (civil_ranges (t / JsDate.msPerDay)) as Hc.
  destruct (JsDate.civilFromDays (t / JsDate.msPerDay)) as [[y m] d].
  destruct Hc as (_ & _ & Hy).
  unfold JsDate.msPerDay in *.
  assert (Hy' : 0 <= y <= 9999) by (apply Hy; divlia).
  unfold JsDate.yearString.
  replace ((0 <=? y) && (y <=? 9999))%bool with true by lia.
  eexists. split; [reflexivity|]. simpl. reflexivity.
Qed.

(** ** Strings *)

Lemma append_cons (x : ascii) (a b : string) :
  String x a +:+ b = String x (a +:+ b).
Proof. reflexivity. Qed.

Lemma append_assoc (a b c : string) : (a +:+ b) +:+ c = a +:+ (b +:+ c).
Proof.
  induction a as [|x a IH]; [reflexivity|].
  rewrite !append_cons. f_equal. exact IH.
Qed.

Lemma append_nil_r (a : string) : a +:+ EmptyString = a.
Proof.
  induction a as [|x a IH]; [reflexivity|].
  rewrite append_cons. f_equal. exact IH.
Qed.

Lemma append_length (a b : string) :
  String.length (a +:+ b) = (String.length a + String.length b)%nat.
Proof.
  induction a as [|x a IH]; [reflexivity|].
  rewrite append_cons. simpl. f_equal. exact IH.
Qed.

Lemma substring_whole (n : nat) (s : string) :
  (String.length s <= n)%nat -> String.substring 0 n s = s.
Proof.
  revert n. induction s as [|c s IH]; intros [|n] H; simpl in *;
    try reflexivity; try lia.
  rewrite IH by lia. reflexivity.
Qed.

Lemma substring_prefix_length (n : nat) (s : string) :
  (n <= String.length s)%nat -> String.length (String.substring 0 n s) = n.
Proof.
  revert n. induction s as [|c s IH]; intros [|n] H; simpl in *;
    try reflexivity; try lia.
  rewrite IH by lia. reflexivity.
Qed.

Lemma includes_append (needle a b : string) :
  Js.includes needle (a +:+ needle +:+ b) = true.
Proof.
  induction a as [|c a IH].
  - change (EmptyString +:+ needle +:+ b) with (needle +:+ b).
    assert (Hp : String.prefix needle (needle +:+ b) = true).
    { clear. induction needle as [|c n IH].
      - now destruct b.
      - rewrite append_cons. simpl.
        destruct (Ascii.ascii_dec c c); [exact IH | congruence]. }
    destruct (needle +:+ b); simpl in *; rewrite Hp; reflexivity.
  - rewrite append_cons. simpl. rewrite IH. apply orb_true_r.
Qed.

(** ** The element formatter *)

Lemma truthyStr_length (s : string) :
  Js.truthyStr (Some s) = true <-> (1 <= String.length s)%nat.
Proof.
  destruct s; simpl; split; intros H; try lia; try discriminate; reflexivity.
Qed.

Lemma formatElement_acc (d : bool) (el : ElementData.t) (i : nat)
    (text : string) :
  formatElement d el i text = text +:+ formatElement d el i EmptyString.
Proof.
  unfold formatElement. cbv zeta.
  destruct (ElementData.text el) as [s|]; [destruct (Js.truthyStr (Some s))|];
    destruct d; rewrite ?append_assoc; reflexivity.
Qed.

Lemma forEachIndexed_acc (d : bool) (elements : list ElementData.t) (i : nat)
    (text : string) :
  forEachIndexed (formatElement d) elements i text
  = text +:+ linesFrom d i elements.
Proof.
  unfold linesFrom. revert i text.
  induction elements as [|el rest IH]; intros i text; simpl.
  - now rewrite append_nil_r.
  - rewrite IH. rewrite (IH _ (formatElement d el i EmptyString)).
    rewrite (formatElement_acc d el i text). now rewrite append_assoc.
Qed.

Lemma linesFrom_cons (d : bool) (i : nat) (el : ElementData.t)
    (rest : list ElementData.t) :
  linesFrom d i (el :: rest)
  = formatElement d el i EmptyString +:+ linesFrom d (S i) rest.
Proof. unfold linesFrom at 1. simpl. apply forEachIndexed_acc. Qed.

Lemma linesFrom_app (d : bool) (i : nat) (before after : list ElementData.t) :
  linesFrom d i (before ++ after)
  = linesFrom d i before +:+ linesFrom d (i + length before) after.
Proof.
  revert i. induction before as [|el rest IH]; intros i.
  - simpl. now rewrite Nat.add_0_r.
  - simpl app. rewrite !linesFrom_cons, IH, append_assoc.
    simpl length. now rewrite Nat.add_succ_r.
Qed.

Lemma formatElementText_around (d : bool) (before after : list ElementData.t)
    (el : ElementData.t) :
  formatElementText (before ++ el :: after) d
  = listingAround d before
      (formatElement d el (length before) EmptyString) after.
Proof.
  unfold formatElementText, listingAround.
  replace (length (before ++ el :: after) =? 0)%nat with false
    by (symmetry; apply Nat.eqb_neq; rewrite length_app; simpl; lia).
  fold (linesFrom d 0 (before ++ el :: after)).
  rewrite linesFrom_app, linesFrom_cons. reflexivity.
Qed.

Lemma formatElement_preview (d : bool) (el : ElementData.t) (i : nat)
    (s : string) :
  ElementData.text el = Some s ->
  (1 <= String.length s)%nat ->
  formatElement d el i EmptyString
  = elementHead el i +:+ preview s +:+ elementTail d el.
Proof.
  intros Ht Hlen. apply truthyStr_length in Hlen.
  unfold formatElement, elementHead, elementTail. cbv zeta.
  rewrite Ht, Hlen.
  destruct d; rewrite ?append_assoc; reflexivity.
Qed.

(** C5. An element whose text has exactly 50 characters is listed with the
    whole text between the quotes and no ellipsis; one whose text has 51
    characters or more is listed with its first 50 characters followed by
    the ellipsis; and whenever nothing is cut (1 to 50 characters) no
    ellipsis is added.  This holds in the detailed and in the compact
    listing, wherever the element stands in the list. *)
Theorem C5_preview_truncation (d : bool) (before after : list ElementData.t)
    (el : ElementData.t) (s : string) :
  ElementData.text el = Some s ->
  (String.length s = 50%nat ->
   formatElementText (before ++ el :: after) d
   = listingAround d before (lineShowing d el (length before) s) after)
  /\ ((51 <= String.length s)%nat ->
      formatElementText (before ++ el :: after) d
      = listingAround d before
          (lineShowing d el (length before)
             (String.substring 0 50 s +:+ ellipsis)) after
      /\ String.length (String.substring 0 50 s) = 50%nat)
  /\ ((1 <= String.length s <= 50)%nat ->
      formatElementText (before ++ el :: after) d
      = listingAround d before (lineShowing d el (length before) s) after).
Proof.
  intros Ht.
  assert (Hshort : (1 <= String.length s <= 50)%nat ->
    formatElementText (before ++ el :: after) d
    = listingAround d before (lineShowing d el (length before) s) after).
  { intros Hlen. rewrite formatElementText_around.
    rewrite (formatElement_preview d el _ s Ht) by lia.
    unfold lineShowing, preview.
    replace (50 <? String.length s)%nat with false
      by (symmetry; apply Nat.ltb_ge; lia).
    rewrite substring_whole by lia.
    simpl. rewrite ?append_assoc. reflexivity. }
  split; [intros Hlen; apply Hshort; lia|].
  split; [|exact Hshort].
  intros Hlen. split; [|apply substring_prefix_length; lia].
  rewrite formatElementText_around.
  rewrite (formatElement_preview d el _ s Ht) by lia.
  unfold lineShowing, preview, ellipsis.
  replace (50 <? String.length s)%nat with true
    by (symmetry; apply Nat.ltb_lt; lia).
  rewrite ?append_assoc. reflexivity.
Qed.

(** ** Running a handler *)

Ltac unfoldHandlers :=
  unfold enumerateElements.handle, clickBySelector.handle,
    teachSelector.handle, getLearnedSelectors.handle,
    enhancedSnapshot.handle, selectorsResource_read,
    createSelectorsResource.read, parse, bind, tryCatch, ret, throw,
    sendSocketMessage, captureAriaSnapshot, consoleError, newDate,
    mapEntries, mapSet, record_, evaluate.

Ltac run := unfoldHandlers; simpl.

Lemma field_undefined {A} (inner : list string -> Js.Value -> Zod.ParseResult A)
    (key : string) (props : list (string * Js.Value)) :
  Js.get props key = Js.Undefined ->
  Zod.field (Zod.optional inner) key props = Zod.Valid None.
Proof. unfold Zod.field, Zod.optional. now intros ->. Qed.

Lemma field_missing_string (key : string) (props : list (string * Js.Value)) :
  Js.get props key = Js.Undefined ->
  Zod.field Zod.string_ key props = Zod.Invalid [requiredString key].
Proof. unfold Zod.field, Zod.string_. now intros ->. Qed.

(** ** Enumeration *)

(** C6. When the enumerate tool gets an empty array from the page, its
    result is one text block that says that no interactive elements were
    found; the text is not empty.  The formatter has its own such sentence
    for an empty list. *)
Theorem C6_empty_enumeration (params : Js.Value)
    (args : EnumerateElementsArgs) (env : Env) (w : World) :
  EnumerateElementsSchema.arguments params = Zod.Valid args ->
  channel env (trace w) "browser_enumerate_elements"
    (Js.Object [("includeHidden", Js.Bool (default false (includeHidden args)))])
  = Ok (Js.Array []) ->
  fst (enumerateElements.handle params env w)
  = Ok (mkResult [TextBlock emptyEnumeration])
  /\ Js.includes "No interactive elements found" emptyEnumeration = true
  /\ emptyEnumeration <> EmptyString
  /\ forall d : bool,
       formatElementText [] d = "No interactive elements found." +:+ Js.nl.
Proof.
  intros Hargs Hreply. split; [|split; [reflexivity|split; [discriminate|]]].
  - run. rewrite Hargs. simpl. rewrite Hreply. reflexivity.
  - intros d. reflexivity.
Qed.

(** ** Failures of the page *)

(** C3. When the enhanced snapshot is asked for the elements and the
    enumerate call fails, after the screenshot and the aria snapshot have
    succeeded, the tool returns a result, not an error: the image block
    and the blocks of the aria snapshot, without an elements block.  Every
    other call to the page that fails makes its tool fail with that error:
    the enumerate call of the enumerate tool, the click call and the aria
    snapshot of the click tool, the screenshot and the aria snapshot of the
    enhanced snapshot. *)
Theorem C3_enumeration_failure_absorbed (props : list (string * Js.Value))
    (env : Env) (w : World) (shot : Js.Value) (snap : ToolResult)
    (e : Error) :
  Js.get props "includeElements" = Js.Bool true ->
  channel env (trace w) "browser_screenshot" (Js.Object []) = Ok shot ->
  ariaSnapshot env (trace w ++ [screenshotMessage]) = Ok snap ->
  channel env (trace w ++ [screenshotMessage; CaptureAriaSnapshot])
    "browser_enumerate_elements"
    (Js.Object [("includeHidden", Js.Bool false)]) = Throw e ->
  fst (enhancedSnapshot.handle (Js.Object props) env w)
  = Ok (mkResult (ImageBlock shot "image/png" :: content snap))
  /\ (forall params args env' w' e',
        EnumerateElementsSchema.arguments params = Zod.Valid args ->
        channel env' (trace w') "browser_enumerate_elements"
          (Js.Object
             [("includeHidden", Js.Bool (default false (includeHidden args)))])
        = Throw e' ->
        fst (enumerateElements.handle params env' w') = Throw e')
  /\ (forall params args env' w' e',
        ClickBySelectorSchema.arguments params = Zod.Valid args ->
        channel env' (trace w') "browser_click_by_selector"
          (Js.Object [("selector", Js.Str (click_selector args))])
        = Throw e' ->
        fst (clickBySelector.handle params env' w') = Throw e')
  /\ (forall params args env' w' ack e',
        ClickBySelectorSchema.arguments params = Zod.Valid args ->
        channel env' (trace w') "browser_click_by_selector"
          (Js.Object [("selector", Js.Str (click_selector args))])
        = Ok ack ->
        ariaSnapshot env' (trace w' ++ [clickMessage (click_selector args)])
        = Throw e' ->
        fst (clickBySelector.handle params env' w') = Throw e')
  /\ (forall params args env' w' e',
        EnhancedSnapshotSchema.arguments params = Zod.Valid args ->
        channel env' (trace w') "browser_screenshot" (Js.Object [])
        = Throw e' ->
        fst (enhancedSnapshot.handle params env' w') = Throw e')
  /\ (forall params args env' w' shot' e',
        EnhancedSnapshotSchema.arguments params = Zod.Valid args ->
        channel env' (trace w') "browser_screenshot" (Js.Object [])
        = Ok shot' ->
        ariaSnapshot env' (trace w' ++ [screenshotMessage]) = Throw e' ->
        fst (enhancedSnapshot.handle params env' w') = Throw e').
Proof.
  intros Hflag Hshot Hsnap Henum.
  repeat split.
  - run. unfold EnhancedSnapshotSchema.arguments, Zod.object, Zod.field,
      Zod.optional. rewrite Hflag. simpl. rewrite Hshot. simpl.
    unfold screenshotMessage in *. rewrite Hsnap. simpl.
    rewrite <- app_assoc. simpl. rewrite Henum. reflexivity.
  - intros params args env' w' e' Hargs Hfail. run.
    rewrite Hargs. simpl. rewrite Hfail. reflexivity.
  - intros params args env' w' e' Hargs Hfail. run.
    rewrite Hargs. simpl. rewrite Hfail. reflexivity.
  - intros params args env' w' ack e' Hargs Hack Hfail. run.
    rewrite Hargs. simpl. rewrite Hack. simpl.
    unfold clickMessage in Hfail. rewrite Hfail. reflexivity.
  - intros params args env' w' e' Hargs Hfail. run.
    rewrite Hargs. simpl. rewrite Hfail. reflexivity.
  - intros params args env' w' shot' e' Hargs Hshot' Hfail. run.
    rewrite Hargs. simpl. rewrite Hshot'. simpl.
    unfold screenshotMessage in Hfail. rewrite Hfail. reflexivity.
Qed.

(** ** Validation *)

(** C4. When the arguments of the teach tool are an object with neither
    [actionDescription] nor [selector], the tool fails with one
    [ZodError] whose issues name both missing fields, in the order of the
    schema (followed by the issue of [notes], if that is ill-typed too);
    nothing is stored and nothing is sent. *)
Theorem C4_validation_lists_every_missing_field
    (props : list (string * Js.Value)) (env : Env) (w : World) :
  Js.get props "actionDescription" = Js.Undefined ->
  Js.get props "selector" = Js.Undefined ->
  exists rest : list Zod.Issue,
    teachSelector.handle (Js.Object props) env w
    = (Throw (ZodError (requiredString "actionDescription"
                        :: requiredString "selector" :: rest)), w)
    /\ (rest = [] \/ exists t, rest = [Zod.mkIssue ["notes"] Zod.TString t]).
Proof.
  intros Hdesc Hsel. run.
  unfold TeachSelectorSchema.arguments, Zod.object.
  rewrite (field_missing_string _ _ Hdesc), (field_missing_string _ _ Hsel).
  unfold Zod.field, Zod.optional, Zod.string_.
  destruct (Js.get props "notes"); simpl; eexists; split; try reflexivity;
    (now left) || (right; eexists; reflexivity).
Qed.

(** ** Optional flags *)

(** C9, as stated, fails. The schemas declare the two flags [.optional()]
    without a default: for the empty argument object, validation yields
    [undefined], not [false]. *)
Lemma C9_validation_yields_undefined :
  EnumerateElementsSchema.arguments (Js.Object [])
  = Zod.Valid (mkEnumerateArgs None)
  /\ EnumerateElementsSchema.arguments (Js.Object [])
     <> Zod.Valid (mkEnumerateArgs (Some false))
  /\ EnhancedSnapshotSchema.arguments (Js.Object [])
     = Zod.Valid (mkEnhancedArgs None)
  /\ EnhancedSnapshotSchema.arguments (Js.Object [])
     <> Zod.Valid (mkEnhancedArgs (Some false)).
Proof. repeat split; discriminate. Qed.

(** C9, as the code has it. When [includeHidden] is not given, validation
    leaves it undefined and the enumerate handler itself falls back to
    [false]: the one message it sends carries [includeHidden: false].  When
    [includeElements] is not given, validation leaves it undefined and the
    enhanced snapshot takes it as false: it asks for the screenshot and,
    if that succeeds, for the aria snapshot, and sends no enumerate
    message. *)
Theorem C9_unspecified_flag_acts_as_false
    (hiddenProps elementsProps : list (string * Js.Value))
    (env : Env) (w : World) :
  Js.get hiddenProps "includeHidden" = Js.Undefined ->
  Js.get elementsProps "includeElements" = Js.Undefined ->
  (EnumerateElementsSchema.arguments (Js.Object hiddenProps)
   = Zod.Valid (mkEnumerateArgs None)
   /\ trace (snd (enumerateElements.handle (Js.Object hiddenProps) env w))
      = trace w ++ [enumerateMessage false])
  /\ (EnhancedSnapshotSchema.arguments (Js.Object elementsProps)
      = Zod.Valid (mkEnhancedArgs None)
      /\ trace (snd (enhancedSnapshot.handle (Js.Object elementsProps) env w))
         = trace w
           ++ match channel env (trace w) "browser_screenshot" (Js.Object [])
              with
              | Ok _ => [screenshotMessage; CaptureAriaSnapshot]
              | Throw _ => [screenshotMessage]
              end).
Proof.
  intros Hhidden Helements.
  assert (Ha : EnumerateElementsSchema.arguments (Js.Object hiddenProps)
               = Zod.Valid (mkEnumerateArgs None)).
  { unfold EnumerateElementsSchema.arguments, Zod.object.
    now rewrite (field_undefined _ _ _ Hhidden). }
  assert (Hb : EnhancedSnapshotSchema.arguments (Js.Object elementsProps)
               = Zod.Valid (mkEnhancedArgs None)).
  { unfold EnhancedSnapshotSchema.arguments, Zod.object.
    now rewrite (field_undefined _ _ _ Helements). }
  split; (split; [assumption|]).
  - unfoldHandlers. rewrite Ha. simpl.
    destruct (channel env (trace w) _ _) as [reply|]; simpl; [|reflexivity].
    destruct (nonEmptyArray reply); simpl; [|reflexivity].
    destruct (formatElementTextUnchecked _ _); reflexivity.
  - unfoldHandlers. rewrite Hb. simpl.
    destruct (channel env (trace w) _ _) as [shot|err]; simpl; [|reflexivity].
    destruct (ariaSnapshot env _); simpl; now rewrite <- app_assoc.
Qed.

(** ** Maps in insertion order *)

Section JsMapFacts.
Context {V : Type}.
Implicit Types (m : list (string * V)) (k : string) (v : V).

Lemma get_set_eq m k v : JsMap.get (JsMap.set m k v) k = Some v.
Proof.
  induction m as [|[k' v'] m IH]; simpl.
  - now rewrite String.eqb_refl.
  - destruct (String.eqb k' k) eqn:E; simpl; rewrite E; [reflexivity|exact IH].
Qed.

Lemma get_set_ne m k k' v :
  k <> k' -> JsMap.get (JsMap.set m k v) k' = JsMap.get m k'.
Proof.
  intros Hne. induction m as [|[k0 v0] m IH]; simpl.
  - apply String.eqb_neq in Hne. now rewrite Hne.
  - destruct (String.eqb k0 k) eqn:E; simpl.
    + apply String.eqb_eq in E. subst k0.
      apply String.eqb_neq in Hne. now rewrite Hne.
    + now rewrite IH.
Qed.

Lemma keys_set_in m k v : In k (JsMap.keys (JsMap.set m k v)).
Proof.
  induction m as [|[k' v'] m IH]; simpl; [now left|].
  destruct (String.eqb k' k) eqn:E; simpl.
  - left. now apply String.eqb_eq.
  - now right.
Qed.

Lemma keys_set_subset m k v k' :
  In k' (JsMap.keys (JsMap.set m k v)) -> k' = k \/ In k' (JsMap.keys m).
Proof.
  induction m as [|[k0 v0] m IH]; simpl.
  - intros [H|[]]. now left.
  - destruct (String.eqb k0 k) eqn:E; simpl; [tauto|].
    intros [H|H]; [tauto|]. destruct (IH H); tauto.
Qed.

Lemma NoDup_keys_set m k v :
  List.NoDup (JsMap.keys m) -> List.NoDup (JsMap.keys (JsMap.set m k v)).
Proof.
  induction m as [|[k0 v0] m IH]; simpl; intros Hnd.
  - constructor; [intros Hin; inversion Hin | constructor].
  - apply List.NoDup_cons_iff in Hnd as [Hnotin Hnd].
    destruct (String.eqb k0 k) eqn:E; simpl; apply List.NoDup_cons_iff.
    + split; assumption.
    + split; [|now apply IH].
      intros Hin. apply keys_set_subset in Hin as [Heq|Hin]; [|tauto].
      apply String.eqb_neq in E. congruence.
Qed.

Lemma count_absent m k : ~ In k (JsMap.keys m) -> JsMap.count m k = 0%nat.
Proof.
  unfold JsMap.count.
  induction m as [|[k0 v0] m IH]; simpl; intros Hnotin; [reflexivity|].
  destruct (String.eqb k0 k) eqn:E.
  - apply String.eqb_eq in E. tauto.
  - apply IH. tauto.
Qed.

Lemma count_NoDup m k :
  List.NoDup (JsMap.keys m) -> In k (JsMap.keys m) -> JsMap.count m k = 1%nat.
Proof.
  induction m as [|[k0 v0] m IH]; simpl; intros Hnd Hin; [contradiction|].
  apply List.NoDup_cons_iff in Hnd as [Hnotin Hnd].
  unfold JsMap.count in *. simpl.
  destruct (String.eqb k0 k) eqn:E; simpl.
  - apply String.eqb_eq in E. subst k0.
    f_equal. now apply count_absent.
  - apply String.eqb_neq in E. destruct Hin as [Heq|Hin]; [congruence|].
    now apply IH.
Qed.

Lemma get_In m k v :
  JsMap.get m k = Some v -> In (k, v) m.
Proof.
  induction m as [|[k0 v0] m IH]; simpl; [discriminate|].
  destruct (String.eqb k0 k) eqn:E.
  - apply String.eqb_eq in E. intros [= ->]. left. now subst.
  - intros H. right. now apply IH.
Qed.

End JsMapFacts.

(** ** What each operation does to the heap *)

Lemma teach_arguments (description target : string) (n : option string) :
  TeachSelectorSchema.arguments (teachParams description target n)
  = Zod.Valid (mkTeachArgs description target n).
Proof. destruct n; reflexivity. Qed.

Lemma teach_world (params : Js.Value) (env : Env) (w : World) :
  snd (teachSelector.handle params env w)
  = match TeachSelectorSchema.arguments params with
    | Zod.Valid a =>
        mkWorld
          (Heap.set learnedSelectors (actionDescription a)
             (mkLearned (teach_selector a) (teach_notes a) (clock env))
             (heap w))
          (trace w) (console w)
    | Zod.Invalid _ => w
    end.
Proof. run. destruct (TeachSelectorSchema.arguments params); reflexivity. Qed.

Lemma enumerate_heap (params : Js.Value) (env : Env) (w : World) :
  heap (snd (enumerateElements.handle params env w)) = heap w.
Proof.
  run. destruct (EnumerateElementsSchema.arguments params); simpl;
    [|reflexivity].
  destruct (channel env _ _ _) as [reply|]; simpl; [|reflexivity].
  destruct (nonEmptyArray reply); simpl; [|reflexivity].
  destruct (formatElementTextUnchecked _ _); reflexivity.
Qed.

Lemma click_heap (params : Js.Value) (env : Env) (w : World) :
  heap (snd (clickBySelector.handle params env w)) = heap w.
Proof.
  run. destruct (ClickBySelectorSchema.arguments params); simpl;
    [|reflexivity].
  destruct (channel env _ _ _); simpl; [|reflexivity].
  destruct (ariaSnapshot env _); reflexivity.
Qed.

Lemma enhanced_heap (params : Js.Value) (env : Env) (w : World) :
  heap (snd (enhancedSnapshot.handle params env w)) = heap w.
Proof.
  run. destruct (EnhancedSnapshotSchema.arguments params) as [a|]; simpl;
    [|reflexivity].
  destruct (channel env _ _ _); simpl; [|reflexivity].
  destruct (ariaSnapshot env _); simpl; [|reflexivity].
  destruct (default false (includeElements a)); simpl; [|reflexivity].
  destruct (channel env _ _ _) as [reply|]; simpl; [|reflexivity].
  destruct (nonEmptyArray reply); simpl; [|reflexivity].
  destruct (formatElementTextUnchecked _ _); reflexivity.
Qed.

Lemma getLearned_world (params : Js.Value) (env : Env) (w : World) :
  snd (getLearnedSelectors.handle params env w) = w.
Proof. reflexivity. Qed.

Lemma readResource_world (uri : string) (env : Env) (w : World) :
  snd (selectorsResource_read uri env w) = w.
Proof. reflexivity. Qed.

Lemma read_set (r : Ref) (k : string) (v : LearnedSelector) (h : Heap)
    (m : list (string * LearnedSelector)) :
  h !! r = Some m ->
  Heap.set r k v h !! r = Some (JsMap.set m k v).
Proof.
  intros Hm. unfold Heap.set. rewrite lookup_alter_eq, Hm. reflexivity.
Qed.

(** ** The store invariant *)

Lemma initial_wellFormed : storeWellFormed initialWorld.
Proof. split; [reflexivity | constructor]. Qed.

Lemma after_wellFormed (op : Operation) (env : Env) (w : World) :
  storeWellFormed w -> storeWellFormed (after op env w).
Proof.
  intros [Halloc Hnd].
  assert (Hsame : forall w', heap w' = heap w -> storeWellFormed w').
  { intros w' Hh. unfold storeWellFormed, store. now rewrite Hh. }
  destruct op as [p|p|p|p|p|u]; simpl.
  - apply Hsame, enumerate_heap.
  - apply Hsame, click_heap.
  - rewrite teach_world.
    destruct (TeachSelectorSchema.arguments p) as [a|]; [|now split].
    unfold storeWellFormed, store. simpl.
    rewrite (read_set _ _ _ _ _ Halloc). unfold Heap.read.
    rewrite (read_set _ _ _ _ _ Halloc). simpl.
    split; [reflexivity | now apply NoDup_keys_set].
  - now split.
  - apply Hsame, enhanced_heap.
  - now split.
Qed.

Lemma reachable_wellFormed (w : World) : reachable w -> storeWellFormed w.
Proof.
  induction 1 as [|op env w Hr IH];
    [apply initial_wellFormed | now apply after_wellFormed].
Qed.

Lemma store_after_teach (description target : string) (n : option string)
    (env : Env) (w : World) :
  storeWellFormed w ->
  store (after (Teach (teachParams description target n)) env w)
  = JsMap.set (store w) description (mkLearned target n (clock env)).
Proof.
  intros [Halloc _]. simpl. rewrite teach_world, teach_arguments.
  unfold store at 1, Heap.read. simpl.
  now rewrite (read_set _ _ _ _ _ Halloc).
Qed.

(** ** The view of the store *)

(** C1, as stated, fails. The getter hands out the map object of the store
    itself: a caller that sets a key on the value it got has changed the
    store. *)
Lemma C1_returned_view_is_live : ~ viewIsSnapshot.
Proof.
  intros Hsnap.
  specialize (Hsnap initialWorld
                (MapSet "login" (mkLearned "#intruder" None 0))
                reachable_initial).
  vm_compute in Hsnap. discriminate Hsnap.
Qed.

(** C1, as the code has it. The getter returns the reference of the store's
    own map, so that a mutation through the returned view is a mutation of
    the store: afterwards the store holds what the mutation makes of its
    former contents.  The two readers, the list-learned tool and the
    resource endpoint, only read the map: they leave the world as it
    was. *)
Theorem C1_view_aliases_store (w : World) (mu : Mutation) (env : Env)
    (params : Js.Value) (uri : string) :
  reachable w ->
  getLearnedSelectorsMap tt = learnedSelectors
  /\ Heap.read learnedSelectors
       (mutate (getLearnedSelectorsMap tt) mu (heap w))
     = applyMutation mu (store w)
  /\ snd (getLearnedSelectors.handle params env w) = w
  /\ snd (selectorsResource_read uri env w) = w.
Proof.
  intros Hr. apply reachable_wellFormed in Hr as [Halloc _].
  repeat split.
  unfold getLearnedSelectorsMap, Heap.read.
  destruct mu as [k v| k |]; simpl;
    unfold Heap.set, Heap.delete, Heap.clear;
    rewrite lookup_alter_eq, Halloc; reflexivity.
Qed.

(** ** Teaching *)

Lemma teach_returns (description target : string) (n : option string)
    (env : Env) (w : World) :
  exists r : ToolResult,
    fst (teachSelector.handle (teachParams description target n) env w) = Ok r.
Proof.
  unfoldHandlers. rewrite teach_arguments. simpl. eexists. reflexivity.
Qed.

(** C2. From any world the server can be in, teaching a description [x]
    the target [a] and then the target [b] succeeds both times and leaves
    one entry under the key [x], exactly as given, whose target is [b] (and
    whose notes and time are those of the second call); the entries under
    other keys are as before. *)
Theorem C2_last_write_wins (w : World) (env1 env2 : Env) (x a b : string)
    (n1 n2 : option string) :
  reachable w ->
  let w1 := after (Teach (teachParams x a n1)) env1 w in
  let w2 := after (Teach (teachParams x b n2)) env2 w1 in
  (exists r1 r2 : ToolResult,
     fst (teachSelector.handle (teachParams x a n1) env1 w) = Ok r1
     /\ fst (teachSelector.handle (teachParams x b n2) env2 w1) = Ok r2)
  /\ JsMap.get (store w2) x = Some (mkLearned b n2 (clock env2))
  /\ JsMap.count (store w2) x = 1%nat
  /\ (forall y : string, y <> x -> JsMap.get (store w2) y = JsMap.get (store w) y).
Proof.
  intros Hr w1 w2.
  pose proof (reachable_wellFormed w Hr) as Hwf.
  pose proof (after_wellFormed (Teach (teachParams x a n1)) env1 w Hwf) as Hwf1.
  fold w1 in Hwf1.
  assert (Hs2 : store w2
                = JsMap.set (JsMap.set (store w) x (mkLearned a n1 (clock env1)))
                    x (mkLearned b n2 (clock env2))).
  { unfold w2. rewrite (store_after_teach x b n2 env2 w1 Hwf1).
    unfold w1. now rewrite (store_after_teach x a n1 env1 w Hwf). }
  split.
  { destruct (teach_returns x a n1 env1 w) as [r1 H1].
    destruct (teach_returns x b n2 env2 w1) as [r2 H2]. eauto. }
  rewrite Hs2. split; [apply get_set_eq|]. split.
  - apply count_NoDup; [|apply keys_set_in].
    apply NoDup_keys_set, NoDup_keys_set, Hwf.
  - intros y Hy. rewrite !get_set_ne by congruence. reflexivity.
Qed.

(** Keys are compared as they were given: descriptions that differ in case
    or in white space are different keys. *)
Example keys_keep_case_and_space :
  JsMap.keys
    (store (after (Teach (teachParams "login" "#c" None)) (offline 3)
              (after (Teach (teachParams "Login " "#b" None)) (offline 2)
                 (after (Teach (teachParams "Login" "#a" None)) (offline 1)
                    initialWorld))))
  = ["Login"; "Login "; "login"].
Proof. reflexivity. Qed.

(** ** The listing of the learned selectors *)

Lemma fold_bullets (stored : list (string * LearnedSelector)) (text : string) :
  fold_left (fun text '(key, value) =>
               text +:+ getLearnedSelectors.bullet key value) stored text
  = text +:+ bullets stored.
Proof.
  revert text. induction stored as [|[k v] rest IH]; intros text; simpl.
  - now rewrite append_nil_r.
  - rewrite IH. apply append_assoc.
Qed.

Lemma bullet_shape (key : string) (value : LearnedSelector) :
  getLearnedSelectors.bullet key value
  = "- **" +:+ key +:+ "**" +:+ Js.nl
    +:+ "  - Selector: `" +:+ selector value +:+ "`" +:+ Js.nl
    +:+ notesLine value
    +:+ "  - Taught: " +:+ JsDate.toISOString (timestamp value) +:+ Js.nl.
Proof.
  unfold getLearnedSelectors.bullet, notesLine. cbv zeta.
  destruct (notes value) as [n|]; [destruct (Js.truthyStr (Some n))|];
    rewrite ?append_assoc; reflexivity.
Qed.

Lemma listing_text (w : World) (env : Env) (params : Js.Value) :
  fst (getLearnedSelectors.handle params env w)
  = Ok (mkResult
          [TextBlock
             (listingHeader
              +:+ (if (JsMap.size (store w) =? 0)%nat
                   then getLearnedSelectors.nothingTaught
                        +:+ getLearnedSelectors.teachHint
                   else bullets (store w)))]).
Proof.
  unfoldHandlers. fold (store w).
  destruct (JsMap.size (store w) =? 0)%nat; [reflexivity|].
  rewrite fold_bullets. reflexivity.
Qed.

Lemma bullets_concat (stored : list (string * LearnedSelector)) :
  bullets stored
  = String.concat EmptyString
      (map (fun entry => getLearnedSelectors.bullet (fst entry) (snd entry))
         stored).
Proof.
  induction stored as [|[k v] rest IH]; [reflexivity|].
  simpl. rewrite IH. destruct rest as [|e rest]; simpl.
  - now rewrite append_nil_r.
  - reflexivity.
Qed.

(** C7. The list-learned tool returns one text block.  For an empty store
    it is the heading, the sentence "No selectors have been taught yet."
    and, after a blank line, the one-line hint, which names the teach
    tool.  Otherwise it is the heading and one bullet per record, in the
    order of the store; a bullet shows the description, the selector, a
    notes line, and the time of teaching in the ISO 8601 format of
    [toISOString].  The notes line is there only for a record that has
    notes: it is missing for a record without notes and for one whose
    notes are the empty string, and shows any other notes. *)
Theorem C7_listing (w : World) (env : Env) (params : Js.Value) :
  fst (getLearnedSelectors.handle params env w)
  = Ok (mkResult
          [TextBlock
             ("## Learned CSS Selectors" +:+ Js.nl +:+ Js.nl
              +:+ (if (JsMap.size (store w) =? 0)%nat
                   then "No selectors have been taught yet." +:+ Js.nl
                        +:+ Js.nl
                        +:+ "Use the `browser_teach_selector` tool to teach the model which selectors to use for specific actions."
                   else bullets (store w)))])
  /\ TeachSelectorSchema.name = "browser_teach_selector"
  /\ Js.includes TeachSelectorSchema.name
       "Use the `browser_teach_selector` tool to teach the model which selectors to use for specific actions."
     = true
  /\ bullets (store w)
     = String.concat EmptyString
         (map (fun entry => getLearnedSelectors.bullet (fst entry) (snd entry))
            (store w))
  /\ forall (key : string) (value : LearnedSelector),
       getLearnedSelectors.bullet key value
       = "- **" +:+ key +:+ "**" +:+ Js.nl
         +:+ "  - Selector: `" +:+ selector value +:+ "`" +:+ Js.nl
         +:+ notesLine value
         +:+ "  - Taught: " +:+ JsDate.toISOString (timestamp value) +:+ Js.nl
       /\ (notes value = None -> notesLine value = EmptyString)
       /\ (notes value = Some EmptyString -> notesLine value = EmptyString)
       /\ (forall n : string,
             notes value = Some n -> n <> EmptyString ->
             notesLine value = "  - Notes: " +:+ n +:+ Js.nl)
       /\ (notesLine value <> EmptyString ->
           exists n : string, notes value = Some n /\ n <> EmptyString)
       /\ JsDate.ISO8601 (JsDate.toISOString (timestamp value)).
Proof.
  split; [rewrite listing_text; reflexivity|].
  split; [reflexivity|]. split; [reflexivity|].
  split; [apply bullets_concat|].
  intros key value. split; [apply bullet_shape|].
  unfold notesLine.
  split; [now intros ->|]. split; [now intros ->|].
  split; [|split; [|apply toISOString_ISO8601]].
  - intros n -> Hn. simpl. apply String.eqb_neq in Hn. now rewrite Hn.
  - destruct (notes value) as [n|]; [|congruence].
    simpl. destruct (String.eqb n EmptyString) eqn:E; simpl; [congruence|].
    intros _. exists n. split; [reflexivity|]. now apply String.eqb_neq.
Qed.

(** ** Objects and their serialization *)

Example ownProperties_order :
  map fst (JsObject.ownProperties
             [("b", 1%nat); ("10", 2%nat); ("9", 3%nat); ("01", 4%nat)])
  = ["9"; "10"; "b"; "01"].
Proof. reflexivity. Qed.

Lemma serialize_object (indent : string) (props : list (string * Js.Value)) :
  JSON.serialize indent (Js.Object props)
  = Some (JSON.block "{" "}" indent
            (JSON.written
               (JsObject.ownProperties
                  (map (fun kv => (fst kv,
                                   JSON.serialize (indent +:+ JSON.gap) (snd kv)))
                     props)))).
Proof.
  simpl. do 4 f_equal.
  induction props as [|[k x] rest IH]; [reflexivity|].
  simpl. f_equal. exact IH.
Qed.

Lemma serialize_entry (value : LearnedSelector) :
  JSON.serialize JSON.gap (createSelectorsResource.entryObject value)
  = Some (entryText value).
Proof.
  unfold createSelectorsResource.entryObject, entryText.
  destruct (notes value); reflexivity.
Qed.

Lemma written_In (props : list (string * option string)) (m : string) :
  In m (JSON.written props)
  <-> exists k s, In (k, Some s) props /\ m = jsonMember k s.
Proof.
  induction props as [|[k [s|]] rest IH]; simpl.
  - split; [contradiction | intros (k & s & [] & _)].
  - rewrite IH. split.
    + intros [<-|(k' & s' & Hin & ->)]; [exists k, s | exists k', s']; tauto.
    + intros (k' & s' & [[= -> ->]|Hin] & ->); [now left|].
      right. eauto.
  - rewrite IH. split.
    + intros (k' & s' & Hin & ->). eauto.
    + intros (k' & s' & [[=]|Hin] & ->). eauto.
Qed.

Section OwnProperties.
Context {V : Type}.
Implicit Types (props : list (string * V)) (e : string * V).

Lemma insertByIndex_In (n : N) e (sorted : list (N * (string * V)))
    (x : N * (string * V)) :
  In x (JsObject.insertByIndex n e sorted) <-> x = (n, e) \/ In x sorted.
Proof.
  induction sorted as [|[m e'] rest IH]; simpl.
  - split; intros [H|H]; auto; contradiction.
  - destruct (n <? m)%N; simpl; [split; intros [H|H]; auto|].
    rewrite IH. tauto.
Qed.

Lemma indexed_In props (n : N) e :
  In (n, e) (JsObject.indexed props)
  <-> In e props /\ JsObject.arrayIndex (fst e) = Some n.
Proof.
  induction props as [|[k v] rest IH]; simpl; [tauto|].
  destruct (JsObject.arrayIndex k) as [i|] eqn:E.
  - rewrite insertByIndex_In, IH. split.
    + intros [[= -> ->]|[Hin Hidx]]; [split; [now left | exact E] | tauto].
    + intros [[<-|Hin] Hidx]; [left; simpl in Hidx; congruence | tauto].
  - rewrite IH. split; [tauto|].
    intros [[<-|Hin] Hidx]; [simpl in Hidx; congruence | tauto].
Qed.

Lemma ownProperties_In props e :
  In e (JsObject.ownProperties props) <-> In e props.
Proof.
  unfold JsObject.ownProperties, JsObject.named.
  rewrite in_app_iff, in_map_iff, filter_In. split.
  - intros [([n e'] & <- & Hin)|[Hin _]]; [|exact Hin].
    now apply indexed_In in Hin.
  - intros Hin. destruct (JsObject.arrayIndex (fst e)) as [n|] eqn:E.
    + left. exists (n, e). split; [reflexivity|]. now apply indexed_In.
    + right. split; [exact Hin | reflexivity].
Qed.

End OwnProperties.

(** ** The object the resource builds *)

Lemma define_In (o : list (string * Js.Value)) (key k : string)
    (value v : Js.Value) :
  In (k, v) (JsObject.define o key value) ->
  (k = key /\ v = value) \/ In (k, v) o.
Proof.
  induction o as [|[k0 v0] rest IH]; simpl.
  - intros [[= <- <-]|[]]. now left.
  - destruct (String.eqb k0 key) eqn:E; simpl.
    + apply String.eqb_eq in E. subst k0.
      intros [[= <- <-]|Hin]; [now left | right; now right].
    + intros [Heq|Hin]; [right; now left|].
      destruct (IH Hin); [now left | right; now right].
Qed.

Lemma collect_from_sound (stored : list (string * LearnedSelector))
    (data : list (string * Js.Value)) (k : string) (o : Js.Value) :
  In (k, o)
    (fold_left (fun data '(key, value) =>
                  JsObject.assign data key
                    (createSelectorsResource.entryObject value))
       stored data) ->
  In (k, o) data
  \/ exists value, In (k, value) stored
                   /\ o = createSelectorsResource.entryObject value.
Proof.
  revert data. induction stored as [|[key value] rest IH]; intros data; simpl.
  - now left.
  - intros Hin. apply IH in Hin as [Hin|(value' & Hin & ->)].
    + unfold JsObject.assign in Hin.
      destruct (String.eqb key "__proto__"); [now left|].
      apply define_In in Hin as [[-> ->]|Hin]; [|now left].
      right. exists value. split; [now left | reflexivity].
    + right. exists value'. split; [now right | reflexivity].
Qed.

Lemma collect_sound (stored : list (string * LearnedSelector)) (k : string)
    (o : Js.Value) :
  In (k, o) (createSelectorsResource.collect stored) ->
  exists value, In (k, value) stored
                /\ o = createSelectorsResource.entryObject value.
Proof.
  intros Hin. apply collect_from_sound in Hin as [[]|H]. exact H.
Qed.

Lemma resource_text (uri : string) (env : Env) (w : World) :
  fst (selectorsResource_read uri env w)
  = Ok (learnedResource
          (documentJson
             (JSON.written
                (JsObject.ownProperties
                   (map (fun kv => (fst kv, JSON.serialize JSON.gap (snd kv)))
                      (createSelectorsResource.collect (store w))))))).
Proof.
  unfoldHandlers. unfold JSON.stringify. rewrite serialize_object.
  reflexivity.
Qed.

(** C10. The resource endpoint returns one JSON document, an object whose
    members each belong to a record of the store and carry its key.  The
    value of the member of a record without notes is an object with the
    two keys [selector] and [timestamp] and no key [notes]; that of a
    record with notes has the three keys [selector], [notes] and
    [timestamp], the notes being a JSON string.  There is never a [null]
    in place of the notes. *)
Theorem C10_notes_key_omitted (w : World) (env : Env) (uri : string) :
  (exists members : list string,
     fst (selectorsResource_read uri env w)
     = Ok (learnedResource (documentJson members))
     /\ forall m : string,
          In m members ->
          exists (key : string) (value : LearnedSelector) (text : string),
            In (key, value) (store w)
            /\ JSON.serialize JSON.gap
                 (createSelectorsResource.entryObject value) = Some text
            /\ m = jsonMember key text)
  /\ (forall value : LearnedSelector,
        notes value = None ->
        JSON.serialize JSON.gap (createSelectorsResource.entryObject value)
        = Some (entryJson
                  [jsonMember "selector" (JSON.quote (selector value));
                   jsonMember "timestamp"
                     (JSON.quote (JsDate.toISOString (timestamp value)))]))
  /\ (forall (value : LearnedSelector) (n : string),
        notes value = Some n ->
        JSON.serialize JSON.gap (createSelectorsResource.entryObject value)
        = Some (entryJson
                  [jsonMember "selector" (JSON.quote (selector value));
                   jsonMember "notes" (JSON.quote n);
                   jsonMember "timestamp"
                     (JSON.quote (JsDate.toISOString (timestamp value)))])).
Proof.
  split; [|split].
  - eexists. split; [apply resource_text|].
    intros m Hm. apply written_In in Hm as (k & s & Hin & ->).
    apply ownProperties_In, in_map_iff in Hin as ([k' o] & [= Hk Hs] & Hin).
    simpl in Hk, Hs. subst k'.
    apply collect_sound in Hin as (value & Hin & ->).
    exists k, value, s. auto.
  - intros value Hn. rewrite serialize_entry. unfold entryText.
    now rewrite Hn.
  - intros value n Hn. rewrite serialize_entry. unfold entryText.
    now rewrite Hn.
Qed.

(** ** The listing and the resource document side by side *)

Lemma get_define_eq (o : list (string * Js.Value)) (key : string)
    (value : Js.Value) :
  Js.get (JsObject.define o key value) key = value.
Proof.
  induction o as [|[k v] rest IH]; simpl.
  - now rewrite String.eqb_refl.
  - destruct (String.eqb k key) eqn:E; simpl; rewrite E; [reflexivity|exact IH].
Qed.

Lemma get_define_ne (o : list (string * Js.Value)) (key k : string)
    (value : Js.Value) :
  key <> k -> Js.get (JsObject.define o key value) k = Js.get o k.
Proof.
  intros Hne. induction o as [|[k0 v0] rest IH]; simpl.
  - apply String.eqb_neq in Hne. now rewrite Hne.
  - destruct (String.eqb k0 key) eqn:E; simpl.
    + apply String.eqb_eq in E. subst k0.
      apply String.eqb_neq in Hne. now rewrite Hne.
    + now rewrite IH.
Qed.

Lemma get_assign_ne (o : list (string * Js.Value)) (key k : string)
    (value : Js.Value) :
  key <> k -> Js.get (JsObject.assign o key value) k = Js.get o k.
Proof.
  intros Hne. unfold JsObject.assign.
  destruct (String.eqb key "__proto__"); [reflexivity|].
  now apply get_define_ne.
Qed.

Lemma get_In_props (o : list (string * Js.Value)) (k : string) :
  Js.get o k <> Js.Undefined -> In (k, Js.get o k) o.
Proof.
  induction o as [|[k0 v0] rest IH]; simpl; [congruence|].
  destruct (String.eqb k0 k) eqn:E.
  - apply String.eqb_eq in E. subst k0. now left.
  - intros H. right. now apply IH.
Qed.

Lemma collect_from_other (stored : list (string * LearnedSelector))
    (data : list (string * Js.Value)) (k : string) :
  ~ In k (JsMap.keys stored) ->
  Js.get
    (fold_left (fun data '(key, value) =>
                  JsObject.assign data key
                    (createSelectorsResource.entryObject value))
       stored data) k
  = Js.get data k.
Proof.
  revert data. induction stored as [|[key value] rest IH]; intros data Hk;
    simpl in *; [reflexivity|].
  rewrite IH by tauto. apply get_assign_ne. tauto.
Qed.

Lemma collect_from_complete (stored : list (string * LearnedSelector))
    (data : list (string * Js.Value)) (k : string) (value : LearnedSelector) :
  List.NoDup (JsMap.keys stored) ->
  In (k, value) stored ->
  k <> "__proto__" ->
  Js.get
    (fold_left (fun data '(key, value) =>
                  JsObject.assign data key
                    (createSelectorsResource.entryObject value))
       stored data) k
  = createSelectorsResource.entryObject value.
Proof.
  intros Hnd Hin Hk. revert data Hnd Hin.
  induction stored as [|[key v] rest IH]; intros data Hnd Hin; simpl in *;
    [contradiction|].
  apply List.NoDup_cons_iff in Hnd as [Hnotin Hnd].
  destruct Hin as [[= -> ->]|Hin].
  - rewrite collect_from_other by exact Hnotin.
    unfold JsObject.assign. apply String.eqb_neq in Hk. rewrite Hk.
    apply get_define_eq.
  - now apply IH.
Qed.

Lemma bullets_app (a b : list (string * LearnedSelector)) :
  bullets (a ++ b) = bullets a +:+ bullets b.
Proof.
  induction a as [|[k v] rest IH]; [reflexivity|].
  simpl. rewrite IH. symmetry. apply append_assoc.
Qed.

(** X21. After a description other than [__proto__] has been taught, the listing
    has the bullet of the record just stored, and the resource document has
    a member under the description whose value is the JSON text of that
    record: both show the same target and the same notes. *)
Lemma taught_entry_is_shown (w : World) (env env' : Env)
    (description target : string) (n : option string) (params : Js.Value)
    (uri : string) :
  reachable w ->
  description <> "__proto__" ->
  let value := mkLearned target n (clock env) in
  let w' := after (Teach (teachParams description target n)) env w in
  (exists before after : list (string * LearnedSelector),
     store w' = before ++ (description, value) :: after
     /\ fst (getLearnedSelectors.handle params env' w')
        = Ok (mkResult
                [TextBlock
                   (listingHeader +:+ bullets before
                    +:+ getLearnedSelectors.bullet description value
                    +:+ bullets after)]))
  /\ (exists members : list string,
        fst (selectorsResource_read uri env' w')
        = Ok (learnedResource (documentJson members))
        /\ In (jsonMember description (entryText value)) members).
Proof.
  intros Hr Hd value w'.
  pose proof (reachable_wellFormed w Hr) as Hwf.
  assert (Hs : store w' = JsMap.set (store w) description value)
    by (apply store_after_teach; exact Hwf).
  assert (Hin : In (description, value) (store w'))
    by (rewrite Hs; apply get_In, get_set_eq).
  assert (Hnd : List.NoDup (JsMap.keys (store w')))
    by (rewrite Hs; apply NoDup_keys_set, Hwf).
  split.
  - destruct (in_split _ _ Hin) as (before & rest & Hsplit).
    exists before, rest. split; [exact Hsplit|].
    rewrite listing_text.
    rewrite Hsplit. unfold JsMap.size.
    replace (length (before ++ (description, value) :: rest) =? 0)%nat
      with false
      by (symmetry; apply Nat.eqb_neq; rewrite length_app; simpl; lia).
    now rewrite bullets_app.
  - eexists. split; [apply resource_text|].
    apply written_In. exists description, (entryText value).
    split; [|reflexivity].
    apply ownProperties_In, in_map_iff.
    exists (description, createSelectorsResource.entryObject value).
    cbn [fst snd]. rewrite serialize_entry. split; [reflexivity|].
    pose proof (collect_from_complete (store w') [] description value
                  Hnd Hin Hd) as Hget.
    fold (createSelectorsResource.collect (store w')) in Hget.
    rewrite <- Hget. apply get_In_props. rewrite Hget. discriminate.
Qed.

(** C8, where the code departs from it. After the description [__proto__]
    has been taught with the target [#a] and the notes [n1], the store
    holds the record and the listing shows it, but the resource document
    is the empty object: the assignment [data[key] = ...] with that key
    sets the prototype of [data] and adds no property. *)
Theorem C8_proto_description_missing_from_document (env env' : Env)
    (params : Js.Value) (uri : string) :
  let w := after (Teach (teachParams "__proto__" "#a" (Some "n1"))) env
             initialWorld in
  store w = [("__proto__", mkLearned "#a" (Some "n1") (clock env))]
  /\ fst (getLearnedSelectors.handle params env' w)
     = Ok (mkResult
             [TextBlock
                (listingHeader
                 +:+ "- **__proto__**" +:+ Js.nl
                 +:+ "  - Selector: `#a`" +:+ Js.nl
                 +:+ "  - Notes: n1" +:+ Js.nl
                 +:+ "  - Taught: " +:+ JsDate.toISOString (clock env)
                 +:+ Js.nl)])
  /\ fst (selectorsResource_read uri env' w) = Ok (learnedResource "{}").
Proof.
  intros w.
  assert (Hs : store w
               = [("__proto__", mkLearned "#a" (Some "n1") (clock env))])
    by (unfold w; rewrite store_after_teach by apply initial_wellFormed;
        reflexivity).
  split; [exact Hs|]. split.
  - rewrite listing_text, Hs. cbn [JsMap.size length Nat.eqb bullets].
    rewrite append_nil_r, bullet_shape. reflexivity.
  - rewrite resource_text, Hs. reflexivity.
Qed.

(** ** The properties at work on sample inputs *)

Lemma C1_view_aliases_store_witness :
  reachable initialWorld
  /\ Heap.read learnedSelectors
       (mutate (getLearnedSelectorsMap tt)
          (MapSet "login" (mkLearned "#intruder" None 0))
          (heap initialWorld))
     = [("login", mkLearned "#intruder" None 0)].
Proof.
  split; [constructor|].
  exact (proj1 (proj2
    (C1_view_aliases_store initialWorld
       (MapSet "login" (mkLearned "#intruder" None 0)) (offline 0)
       Js.Undefined "selectors://learned" reachable_initial))).
Defined.

Lemma C2_last_write_wins_witness :
  reachable initialWorld
  /\ store (after (Teach (teachParams "x" "b" None)) (offline 2)
             (after (Teach (teachParams "x" "a" (Some "first"))) (offline 1)
                initialWorld))
     = [("x", mkLearned "b" None 2)]
  /\ JsMap.count [("x", mkLearned "b" None 2)] "x" = 1%nat.
Proof.
  split; [constructor|]. split; [reflexivity|].
  exact (proj1 (proj2 (proj2
    (C2_last_write_wins initialWorld (offline 1) (offline 2) "x" "a" "b"
       (Some "first") None reachable_initial)))).
Defined.

Lemma C3_enumeration_failure_absorbed_witness :
  fst (enhancedSnapshot.handle
         (Js.Object [("includeElements", Js.Bool true)])
         pageWithoutEnumeration initialWorld)
  = Ok (mkResult [ImageBlock (Js.Str "iVBORw0KGgo=") "image/png";
                  TextBlock "- document"]).
Proof.
  exact (proj1
    (C3_enumeration_failure_absorbed [("includeElements", Js.Bool true)]
       pageWithoutEnumeration initialWorld (Js.Str "iVBORw0KGgo=")
       (mkResult [TextBlock "- document"]) (Rejected "Unknown message type")
       eq_refl eq_refl eq_refl eq_refl)).
Defined.

Lemma C4_validation_lists_every_missing_field_witness :
  exists rest : list Zod.Issue,
    teachSelector.handle (Js.Object []) (offline 0) initialWorld
    = (Throw (ZodError (requiredString "actionDescription"
                        :: requiredString "selector" :: rest)),
       initialWorld)
    /\ (rest = [] \/ exists t, rest = [Zod.mkIssue ["notes"] Zod.TString t]).
Proof.
  apply (C4_validation_lists_every_missing_field [] (offline 0) initialWorld);
    reflexivity.
Defined.

Lemma C5_preview_truncation_witness :
  String.length fiftyCharacters = 50%nat
  /\ formatElementText [buttonWith fiftyCharacters] false
     = "1. **button** - " +:+ Js.dq +:+ fiftyCharacters +:+ Js.dq
       +:+ " (`#go`)" +:+ Js.nl
  /\ formatElementText [buttonWith fiftyOneCharacters] false
     = "1. **button** - " +:+ Js.dq +:+ fiftyCharacters +:+ "..." +:+ Js.dq
       +:+ " (`#go`)" +:+ Js.nl.
Proof.
  split; [reflexivity|]. split.
  - exact (proj1
      (C5_preview_truncation false [] [] (buttonWith fiftyCharacters)
         fiftyCharacters eq_refl) eq_refl).
  - exact (proj1 (proj1 (proj2
      (C5_preview_truncation false [] [] (buttonWith fiftyOneCharacters)
         fiftyOneCharacters eq_refl)) (le_n 51))).
Defined.

Lemma C6_empty_enumeration_witness :
  fst (enumerateElements.handle (Js.Object []) emptyPage initialWorld)
  = Ok (mkResult [TextBlock emptyEnumeration]).
Proof.
  exact (proj1
    (C6_empty_enumeration (Js.Object []) (mkEnumerateArgs None) emptyPage
       initialWorld eq_refl eq_refl)).
Defined.

Lemma C9_unspecified_flag_acts_as_false_witness :
  trace (snd (enumerateElements.handle (Js.Object []) (offline 0)
                initialWorld))
  = [enumerateMessage false]
  /\ trace (snd (enhancedSnapshot.handle (Js.Object []) emptyPage
                   initialWorld))
     = [screenshotMessage; CaptureAriaSnapshot].
Proof.
  pose proof (C9_unspecified_flag_acts_as_false [] [] (offline 0)
                initialWorld eq_refl eq_refl) as [[_ Hhidden] _].
  pose proof (C9_unspecified_flag_acts_as_false [] [] emptyPage
                initialWorld eq_refl eq_refl) as [_ [_ Helements]].
  split; [exact Hhidden | exact Helements].
Defined.

(* ===================================================================== *)
(** * Further properties *)
(* ===================================================================== *)

(** ** Validation comes first *)

(** X1. Arguments that a tool's schema rejects make the tool fail with the
    issues of the schema and leave the world as it was: no message is sent,
    nothing is stored, nothing is logged. *)
Theorem rejected_arguments_change_nothing (params : Js.Value)
    (issues : list Zod.Issue) (env : Env) (w : World) :
  (EnumerateElementsSchema.arguments params = Zod.Invalid issues ->
   enumerateElements.handle params env w = (Throw (ZodError issues), w))
  /\ (ClickBySelectorSchema.arguments params = Zod.Invalid issues ->
      clickBySelector.handle params env w = (Throw (ZodError issues), w))
  /\ (TeachSelectorSchema.arguments params = Zod.Invalid issues ->
      teachSelector.handle params env w = (Throw (ZodError issues), w))
  /\ (EnhancedSnapshotSchema.arguments params = Zod.Invalid issues ->
      enhancedSnapshot.handle params env w = (Throw (ZodError issues), w)).
Proof.
  repeat split; intros H; unfoldHandlers; rewrite H; reflexivity.
Qed.

(** ** The store over time *)

Lemma store_step (op : Operation) (env : Env) (w : World) :
  storeWellFormed w ->
  store (after op env w)
  = match op with
    | Teach params =>
        match TeachSelectorSchema.arguments params with
        | Zod.Valid a =>
            JsMap.set (store w) (actionDescription a)
              (mkLearned (teach_selector a) (teach_notes a) (clock env))
        | Zod.Invalid _ => store w
        end
    | _ => store w
    end.
Proof.
  intros [Halloc _]. unfold store at 1.
  destruct op as [p|p|p|p|p|u]; simpl.
  - now rewrite enumerate_heap.
  - now rewrite click_heap.
  - rewrite teach_world.
    destruct (TeachSelectorSchema.arguments p) as [a|]; [|reflexivity].
    unfold Heap.read. simpl. now rewrite (read_set _ _ _ _ _ Halloc).
  - reflexivity.
  - now rewrite enhanced_heap.
  - reflexivity.
Qed.

Lemma afterAll_wellFormed (steps : list (Operation * Env)) (w : World) :
  storeWellFormed w -> storeWellFormed (afterAll steps w).
Proof.
  revert w. induction steps as [|[op env] rest IH]; intros w Hwf;
    [exact Hwf|].
  simpl. apply IH, after_wellFormed, Hwf.
Qed.

Section KeysOfSet.
Context {V : Type}.
Implicit Types (m : list (string * V)) (k : string) (v : V).

Lemma keys_set_present m k v :
  In k (JsMap.keys m) -> JsMap.keys (JsMap.set m k v) = JsMap.keys m.
Proof.
  induction m as [|[k0 v0] m IH]; simpl; [contradiction|].
  destruct (String.eqb k0 k) eqn:E; simpl; [reflexivity|].
  intros [Heq|Hin]; [apply String.eqb_neq in E; congruence|].
  f_equal. now apply IH.
Qed.

Lemma keys_set_absent m k v :
  ~ In k (JsMap.keys m) -> JsMap.keys (JsMap.set m k v) = JsMap.keys m ++ [k].
Proof.
  induction m as [|[k0 v0] m IH]; simpl; intros Hnotin; [reflexivity|].
  destruct (String.eqb k0 k) eqn:E; simpl.
  - apply String.eqb_eq in E. tauto.
  - f_equal. apply IH. tauto.
Qed.

Lemma has_keys m k : JsMap.has m k = true <-> In k (JsMap.keys m).
Proof.
  induction m as [|[k0 v0] m IH]; simpl; [split; [discriminate|tauto]|].
  rewrite orb_true_iff, IH, String.eqb_eq. tauto.
Qed.

Lemma get_keys m k : JsMap.get m k <> None <-> In k (JsMap.keys m).
Proof.
  induction m as [|[k0 v0] m IH]; simpl; [tauto|].
  destruct (String.eqb k0 k) eqn:E.
  - apply String.eqb_eq in E. split; [now left | discriminate].
  - apply String.eqb_neq in E. rewrite IH. tauto.
Qed.

End KeysOfSet.

(** X4. Of all operations only a teach call with valid arguments changes the
    contents of the store, and what it does is one [set] under the
    description as given. *)
Theorem store_changes_only_by_teach (op : Operation) (env : Env) (w : World) :
  reachable w ->
  store (after op env w) <> store w ->
  exists (params : Js.Value) (args : TeachSelectorArgs),
    op = Teach params
    /\ TeachSelectorSchema.arguments params = Zod.Valid args
    /\ store (after op env w)
       = JsMap.set (store w) (actionDescription args)
           (mkLearned (teach_selector args) (teach_notes args) (clock env)).
Proof.
  intros Hr Hchanged. apply reachable_wellFormed in Hr.
  rewrite (store_step op env w Hr) in *.
  destruct op as [p|p|p|p|p|u]; try congruence.
  destruct (TeachSelectorSchema.arguments p) as [a|] eqn:E; [|congruence].
  exists p, a. auto.
Qed.

Lemma keys_after_step (op : Operation) (env : Env) (w : World) :
  storeWellFormed w ->
  exists added : list string,
    JsMap.keys (store (after op env w)) = JsMap.keys (store w) ++ added
    /\ (length added <= 1)%nat.
Proof.
  intros Hwf. rewrite (store_step op env w Hwf).
  assert (Hsame : exists added : list string,
            JsMap.keys (store w) = JsMap.keys (store w) ++ added
            /\ (length added <= 1)%nat).
  { exists []. rewrite app_nil_r. simpl. split; [reflexivity | lia]. }
  destruct op as [p|p|p|p|p|u]; try exact Hsame.
  destruct (TeachSelectorSchema.arguments p) as [a|]; [|exact Hsame].
  destruct (in_dec String.string_dec (actionDescription a)
              (JsMap.keys (store w))) as [Hin|Hnotin].
  - rewrite keys_set_present by exact Hin. exact Hsame.
  - rewrite keys_set_absent by exact Hnotin.
    exists [actionDescription a]. simpl. split; [reflexivity | lia].
Qed.

(** X5. No series of operations removes or reorders the descriptions of the
    store: afterwards the keys are the former keys, in the same order,
    followed by keys that were not there, at most one for each
    operation. *)
Theorem keys_only_appended (steps : list (Operation * Env)) (w : World) :
  reachable w ->
  exists added : list string,
    JsMap.keys (store (afterAll steps w)) = JsMap.keys (store w) ++ added
    /\ (length added <= length steps)%nat
    /\ forall k : string, In k added -> ~ In k (JsMap.keys (store w)).
Proof.
  intros Hr. apply reachable_wellFormed in Hr.
  assert (Hgrow : exists added : list string,
            JsMap.keys (store (afterAll steps w))
            = JsMap.keys (store w) ++ added
            /\ (length added <= length steps)%nat).
  { revert w Hr. induction steps as [|[op env] rest IH]; intros w Hwf.
    - exists []. rewrite app_nil_r. simpl. split; [reflexivity | lia].
    - simpl.
      destruct (keys_after_step op env w Hwf) as (first & Hfirst & Hlen).
      destruct (IH (after op env w) (after_wellFormed op env w Hwf))
        as (others & Hothers & Hlen').
      exists (first ++ others). rewrite Hothers, Hfirst, <- app_assoc.
      split; [reflexivity|]. rewrite length_app. lia. }
  destruct Hgrow as (added & Hkeys & Hlen).
  exists added. split; [exact Hkeys|]. split; [exact Hlen|].
  intros k Hin Hold.
  pose proof (afterAll_wellFormed steps w Hr) as [_ Hnd].
  rewrite Hkeys in Hnd. clear - Hnd Hin Hold.
  induction (JsMap.keys (store w)) as [|k0 l IH]; [contradiction|].
  simpl in Hnd. apply List.NoDup_cons_iff in Hnd as [Hk0 Hnd].
  destruct Hold as [->|Hold]; [|now apply IH].
  apply Hk0. apply in_app_iff. now right.
Qed.

(** X6. A record stays as it is, with its target, its notes and its time,
    through every series of operations in which its description is not
    taught again. *)
Theorem record_persists (steps : list (Operation * Env)) (w : World)
    (k : string) (v : LearnedSelector) :
  reachable w ->
  JsMap.get (store w) k = Some v ->
  Forall (fun step => ~ teaches k (fst step)) steps ->
  JsMap.get (store (afterAll steps w)) k = Some v.
Proof.
  intros Hr. apply reachable_wellFormed in Hr. revert w Hr.
  induction steps as [|[op env] rest IH]; intros w Hwf Hget Hnot;
    [exact Hget|].
  apply Forall_cons_iff in Hnot as [Hop Hrest]. simpl in *.
  apply IH; [now apply after_wellFormed | | exact Hrest].
  rewrite (store_step op env w Hwf).
  destruct op as [p|p|p|p|p|u]; try exact Hget.
  destruct (TeachSelectorSchema.arguments p) as [a|] eqn:E; [|exact Hget].
  rewrite get_set_ne; [exact Hget|].
  intros Heq. apply Hop. simpl. exists a. auto.
Qed.

Lemma existsb_eqb_In (k : string) (l : list string) :
  existsb (String.eqb k) l = true <-> In k l.
Proof.
  rewrite existsb_exists. split.
  - intros (x & Hin & Heq). apply String.eqb_eq in Heq. now subst.
  - intros Hin. exists k. split; [exact Hin | apply String.eqb_refl].
Qed.

Lemma teaches_taughtDescription (k : string) (op : Operation) :
  teaches k op <-> taughtDescription op = Some k.
Proof.
  destruct op as [p|p|p|p|p|u]; simpl; try (split; [tauto | discriminate]).
  destruct (TeachSelectorSchema.arguments p) as [a|issues]; split.
  - intros (args & [= <-] & <-). reflexivity.
  - intros [= <-]. now exists a.
  - intros (args & Hargs & _). discriminate.
  - discriminate.
Qed.

Lemma keys_step (op : Operation) (env : Env) (w : World) :
  storeWellFormed w ->
  JsMap.keys (store (after op env w))
  = noteTaught (JsMap.keys (store w)) (op, env).
Proof.
  intros Hwf. rewrite (store_step op env w Hwf). unfold noteTaught. simpl.
  destruct op as [p|p|p|p|p|u]; try reflexivity. simpl.
  destruct (TeachSelectorSchema.arguments p) as [a|]; [|reflexivity].
  destruct (existsb (String.eqb (actionDescription a)) (JsMap.keys (store w)))
    eqn:E.
  - apply keys_set_present. now apply existsb_eqb_In.
  - apply keys_set_absent. rewrite <- existsb_eqb_In. congruence.
Qed.

Lemma keys_afterAll (steps : list (Operation * Env)) (w : World) :
  storeWellFormed w ->
  JsMap.keys (store (afterAll steps w))
  = taughtOnto (JsMap.keys (store w)) steps.
Proof.
  revert w. induction steps as [|[op env] rest IH]; intros w Hwf;
    [reflexivity|].
  simpl. rewrite IH by now apply after_wellFormed.
  now rewrite keys_step.
Qed.

Lemma In_taughtOnto (k : string) (steps : list (Operation * Env))
    (seen : list string) :
  In k (taughtOnto seen steps)
  <-> In k seen
      \/ exists step : Operation * Env,
           In step steps /\ taughtDescription (fst step) = Some k.
Proof.
  revert seen. induction steps as [|step rest IH]; intros seen; simpl.
  - split; [tauto | intros [H|(step & [] & _)]; exact H].
  - rewrite IH. unfold noteTaught.
    destruct (taughtDescription (fst step)) as [d|] eqn:Hd.
    + destruct (existsb (String.eqb d) seen) eqn:E.
      * split.
        -- intros [H|(s & Hin & Hs)]; [now left|]. right. exists s. tauto.
        -- intros [H|(s & [<-|Hin] & Hs)]; [now left| |].
           ++ left. apply existsb_eqb_In. congruence.
           ++ right. now exists s.
      * rewrite in_app_iff. simpl. split.
        -- intros [[H|[<-|[]]]|(s & Hin & Hs)]; [now left| |].
           ++ right. exists step. tauto.
           ++ right. exists s. tauto.
        -- intros [H|(s & [<-|Hin] & Hs)]; [tauto| |].
           ++ left. right. left. congruence.
           ++ right. now exists s.
    + split.
      * intros [H|(s & Hin & Hs)]; [now left|]. right. exists s. tauto.
      * intros [H|(s & [<-|Hin] & Hs)]; [now left|congruence|].
        right. now exists s.
Qed.

(** X7. The store lists every description once, in the order in which the
    descriptions were first taught: after a series of operations its keys
    are the keys it had, followed by the descriptions of the valid teach
    calls of the series that were not there yet, each at its first
    teaching.  So the size of the store is the number of distinct
    descriptions taught, a description is in the store exactly if it was
    there or some valid teach call of the series names it, and no
    description occurs twice. *)
Theorem store_lists_each_taught_description_once
    (steps : list (Operation * Env)) (w : World) :
  reachable w ->
  JsMap.keys (store (afterAll steps w))
  = taughtOnto (JsMap.keys (store w)) steps
  /\ JsMap.size (store (afterAll steps w))
     = length (taughtOnto (JsMap.keys (store w)) steps)
  /\ List.NoDup (taughtOnto (JsMap.keys (store w)) steps)
  /\ (forall k : string,
        JsMap.has (store (afterAll steps w)) k = true
        <-> JsMap.has (store w) k = true
            \/ exists step : Operation * Env,
                 In step steps /\ teaches k (fst step))
  /\ forall k : string,
       JsMap.count (store (afterAll steps w)) k
       = if JsMap.has (store (afterAll steps w)) k then 1%nat else 0%nat.
Proof.
  intros Hr. apply reachable_wellFormed in Hr as Hwf.
  pose proof (keys_afterAll steps w Hwf) as Hkeys.
  destruct (afterAll_wellFormed steps w Hwf) as [_ Hnd].
  split; [exact Hkeys|]. split; [|split; [|split]].
  - rewrite <- Hkeys. unfold JsMap.size, JsMap.keys. now rewrite length_map.
  - now rewrite <- Hkeys.
  - intros k. rewrite !has_keys, Hkeys, In_taughtOnto.
    split; (intros [H|(step & Hin & Hstep)]; [now left|]; right; exists step;
            split; [exact Hin | now apply teaches_taughtDescription]).
  - intros k. destruct (JsMap.has (store (afterAll steps w)) k) eqn:E.
    + apply count_NoDup; [exact Hnd | now apply has_keys].
    + apply count_absent. rewrite <- has_keys. congruence.
Qed.

(** X9. The list-learned tool and the resource endpoint never fail and change
    nothing, whatever arguments or address they are given (the tool does
    not validate its arguments) and whatever the page would answer. *)
Theorem readers_succeed_and_change_nothing (params : Js.Value)
    (uri : string) (env : Env) (w : World) :
  (exists text : string,
     getLearnedSelectors.handle params env w
     = (Ok (mkResult [TextBlock (listingHeader +:+ text)]), w))
  /\ (exists text : string,
        selectorsResource_read uri env w = (Ok (learnedResource text), w)).
Proof.
  split.
  - eexists. apply injective_projections; [apply listing_text | reflexivity].
  - eexists. apply injective_projections; [apply resource_text | reflexivity].
Qed.

(** X8. The teach tool takes any two strings, the empty string included, as
    description and target: from any world the server can be in it
    returns, stores the record under the description with the time of the
    call, and sends and logs nothing. *)
Theorem teach_stores_what_it_is_given (description target : string)
    (n : option string) (env : Env) (w : World) :
  reachable w ->
  let w' := after (Teach (teachParams description target n)) env w in
  (exists r : ToolResult,
     fst (teachSelector.handle (teachParams description target n) env w)
     = Ok r)
  /\ JsMap.get (store w') description
     = Some (mkLearned target n (clock env))
  /\ trace w' = trace w
  /\ console w' = console w.
Proof.
  intros Hr w'. apply reachable_wellFormed in Hr.
  split; [apply teach_returns|]. split.
  - unfold w'. rewrite store_after_teach by exact Hr. apply get_set_eq.
  - unfold w'. simpl. rewrite teach_world, teach_arguments. now split.
Qed.

(** ** The formatter on the items of a reply *)

Lemma detailLineUnchecked_typed (label : string) (x : Js.Value) :
  isOptionalString x = true ->
  detailLineUnchecked label x
  = Some (detailLine label match x with Js.Str s => Some s | _ => None end).
Proof.
  destruct x; try discriminate; intros _; [reflexivity|].
  unfold detailLineUnchecked, detailLine. simpl.
  destruct (String.eqb s EmptyString); reflexivity.
Qed.

Lemma formatElementUnchecked_typed (d : bool) (v : Js.Value) (i : nat)
    (t : string) :
  wellTypedElement v = true ->
  formatElementUnchecked d v i t = Some (formatElement d (asElementData v) i t).
Proof.
  destruct v as [| | | | | |props]; try discriminate. simpl.
  intros H. repeat (apply andb_prop in H as [H ?]).
  unfold formatElementUnchecked, formatElement, asElementData, optField.
  cbn [Js.prop ElementData.tag ElementData.text ElementData.selector
       ElementData.id ElementData.classes ElementData.type ElementData.role].
  rewrite !detailLineUnchecked_typed by assumption.
  destruct (Js.get props "tag") as [| | | |tg| |]; try discriminate.
  destruct (Js.get props "selector") as [| | | |sl| |]; try discriminate.
  destruct (Js.get props "text") as [| | | |tx| |]; try discriminate; simpl.
  - destruct (String.eqb tg EmptyString); destruct d; reflexivity.
  - destruct (String.eqb tg EmptyString); destruct (String.eqb tx EmptyString);
      destruct d; reflexivity.
Qed.

Lemma forEachUnchecked_typed (d : bool) (items : list Js.Value) (i : nat)
    (t : string) :
  forallb wellTypedElement items = true ->
  forEachUnchecked d items i t
  = Some (forEachIndexed (formatElement d) (map asElementData items) i t).
Proof.
  revert i t. induction items as [|v rest IH]; intros i t H; [reflexivity|].
  simpl in H. apply andb_prop in H as [Hv Hrest]. simpl.
  rewrite formatElementUnchecked_typed by exact Hv. now apply IH.
Qed.

Lemma formatElementTextUnchecked_typed (d : bool) (items : list Js.Value) :
  forallb wellTypedElement items = true ->
  formatElementTextUnchecked items d
  = Some (formatElementText (map asElementData items) d).
Proof.
  intros H. unfold formatElementTextUnchecked, formatElementText.
  rewrite length_map. destruct (length items =? 0)%nat; [reflexivity|].
  now apply forEachUnchecked_typed.
Qed.

Lemma formatElementUnchecked_breaks (d : bool) (v : Js.Value) (i : nat)
    (t : string) :
  breaksFormatter v = true -> formatElementUnchecked d v i t = None.
Proof.
  destruct v as [| |b|n|s|l|props]; try reflexivity; try discriminate.
  simpl. intros H. apply andb_prop in H as [Htruthy Hstring].
  unfold formatElementUnchecked. cbn [Js.prop].
  destruct (if Js.truthy (Js.get props "tag")
            then Js.toString (Js.get props "tag") else Some "element");
    [|reflexivity].
  rewrite Htruthy.
  destruct (Js.get props "text"); try reflexivity. discriminate.
Qed.

Lemma formatElementTextUnchecked_breaks (d : bool) (items : list Js.Value) :
  existsb breaksFormatter items = true ->
  formatElementTextUnchecked items d = None.
Proof.
  intros H. unfold formatElementTextUnchecked.
  destruct items as [|v rest]; [discriminate|].
  cbn [length Nat.eqb].
  generalize 0%nat, EmptyString. revert H.
  generalize (v :: rest). clear. intros items.
  induction items as [|v rest IH]; intros H i t; [discriminate|].
  simpl in H. simpl.
  destruct (breaksFormatter v) eqn:Hv.
  - now rewrite formatElementUnchecked_breaks.
  - destruct (formatElementUnchecked d v i t); [|reflexivity].
    now apply IH.
Qed.

(** An item without a selector is listed with the text [undefined] in its
    place, and one whose tag is a number with the number. *)
Example formatter_prints_missing_selector :
  formatElementTextUnchecked [Js.Object [("tag", Js.Str "a")]] true
  = Some ("1. **a**" +:+ Js.nl
          +:+ "   - CSS Selector: `undefined`" +:+ Js.nl)
  /\ formatElementTextUnchecked
       [Js.Object [("tag", Js.Number 7); ("selector", Js.Str "#x")]] false
     = Some ("1. **7** (`#x`)" +:+ Js.nl).
Proof. split; reflexivity. Qed.

(** An item that is [null], and a text that is a number, stop the
    formatter, also after items that were fine. *)
Example formatter_throws_on_ill_typed_items :
  formatElementTextUnchecked [Js.Null] true = None
  /\ formatElementTextUnchecked (itemsOf elementsWithNull) false = None
  /\ formatElementTextUnchecked (itemsOf elementWithNumericText) true = None.
Proof. repeat split; reflexivity. Qed.

Lemma existsb_nonEmptyArray (reply : Js.Value) :
  existsb breaksFormatter (itemsOf reply) = true -> nonEmptyArray reply = true.
Proof. destruct reply as [| | | | |[|v l]|]; try discriminate; reflexivity. Qed.

(** ** Tools that talk to the page *)

(** X10. The click tool sends the selector and nothing else (the description
    stays with the server), asks for the aria snapshot only after the click
    has succeeded, and on success answers with a line that names the
    selector, with the description in parentheses if there is a non-empty
    one, followed by the blocks of the snapshot. *)
Theorem click_sends_selector_then_snapshots (params : Js.Value)
    (args : ClickBySelectorArgs) (env : Env) (w : World) :
  ClickBySelectorSchema.arguments params = Zod.Valid args ->
  let message := clickMessage (click_selector args) in
  let reply :=
    channel env (trace w) "browser_click_by_selector"
      (Js.Object [("selector", Js.Str (click_selector args))]) in
  trace (snd (clickBySelector.handle params env w))
  = trace w ++ message :: match reply with
                          | Ok _ => [CaptureAriaSnapshot]
                          | Throw _ => []
                          end
  /\ forall (ack : Js.Value) (snap : ToolResult),
       reply = Ok ack ->
       ariaSnapshot env (trace w ++ [message]) = Ok snap ->
       fst (clickBySelector.handle params env w)
       = Ok (mkResult
               (TextBlock
                  ("Clicked element with selector: " +:+ click_selector args
                   +:+ match absentIfEmpty (click_description args) with
                       | Some d => " (" +:+ d +:+ ")"
                       | None => EmptyString
                       end)
                :: content snap)).
Proof.
  intros Hargs message reply. split.
  - unfoldHandlers. rewrite Hargs. simpl. fold reply.
    destruct reply; simpl; [|reflexivity].
    destruct (ariaSnapshot env _); simpl; now rewrite <- app_assoc.
  - intros ack snap Hack Hsnap. unfoldHandlers. rewrite Hargs. simpl.
    fold reply. rewrite Hack. simpl.
    unfold message, clickMessage in Hsnap. rewrite Hsnap. simpl.
    destruct (click_description args) as [d|]; [|reflexivity].
    simpl. destruct (String.eqb d EmptyString); reflexivity.
Qed.

(** X11. What the enumerate tool makes of the page's answer: [undefined],
    [null] and primitive values give the sentence that nothing was found;
    a plain object gives that sentence and a note about the unexpected
    data; an array whose items are all what [interface ElementData]
    declares gives the detailed listing of the items, numbered from 1; an
    array with an item that is [null] or [undefined], or whose text is
    truthy and no string, makes the tool fail with a [TypeError], after the
    one message has been sent. *)
Theorem enumerate_output_by_reply (params : Js.Value)
    (args : EnumerateElementsArgs) (env : Env) (w : World)
    (reply : Js.Value) :
  EnumerateElementsSchema.arguments params = Zod.Valid args ->
  channel env (trace w) "browser_enumerate_elements"
    (Js.Object [("includeHidden", Js.Bool (default false (includeHidden args)))])
  = Ok reply ->
  (notAnObject reply ->
   fst (enumerateElements.handle params env w)
   = Ok (mkResult [TextBlock (enumerationHeading +:+ nothingEnumerated)]))
  /\ (forall props : list (string * Js.Value),
        reply = Js.Object props ->
        fst (enumerateElements.handle params env w)
        = Ok (mkResult
                [TextBlock (enumerationHeading +:+ nothingEnumerated
                            +:+ unexpectedDataNote)]))
  /\ (forall (item : Js.Value) (items : list Js.Value),
        reply = Js.Array (item :: items) ->
        forallb wellTypedElement (item :: items) = true ->
        fst (enumerateElements.handle params env w)
        = Ok (mkResult
                [TextBlock
                   (enumerationHeading
                    +:+ linesFrom true 0
                          (map asElementData (item :: items)))]))
  /\ (forall items : list Js.Value,
        reply = Js.Array items ->
        existsb breaksFormatter items = true ->
        enumerateElements.handle params env w
        = (Throw TypeError,
           mkWorld (heap w)
             (trace w
              ++ [enumerateMessage (default false (includeHidden args))])
             (console w))).
Proof.
  intros Hargs Hreply. repeat split.
  - intros Hno. unfoldHandlers. rewrite Hargs. simpl. rewrite Hreply.
    destruct reply as [| |b|n|s|items|props]; try contradiction;
      try reflexivity.
    + destruct b; reflexivity.
    + simpl. destruct (n =? 0); reflexivity.
    + simpl. destruct (String.eqb s EmptyString); reflexivity.
  - intros props ->. unfoldHandlers. rewrite Hargs. simpl. rewrite Hreply.
    reflexivity.
  - intros item items -> Htyped. unfoldHandlers. rewrite Hargs. simpl.
    rewrite Hreply. cbn [nonEmptyArray Js.isArray itemsOf length Nat.ltb
                         Nat.leb andb].
    rewrite (formatElementTextUnchecked_typed true (item :: items) Htyped).
    reflexivity.
  - intros items -> Hbreaks. unfoldHandlers. rewrite Hargs. simpl.
    rewrite Hreply.
    rewrite (existsb_nonEmptyArray (Js.Array items) Hbreaks).
    cbn [itemsOf].
    rewrite (formatElementTextUnchecked_breaks true items Hbreaks).
    reflexivity.
Qed.

(** X12. A flag [includeHidden] that is given goes to the page as it is: the
    enumerate tool sends one message, which carries it. *)
Theorem enumerate_passes_flag_on (props : list (string * Js.Value))
    (b : bool) (env : Env) (w : World) :
  Js.get props "includeHidden" = Js.Bool b ->
  trace (snd (enumerateElements.handle (Js.Object props) env w))
  = trace w ++ [enumerateMessage b].
Proof.
  intros Hflag. unfoldHandlers.
  unfold EnumerateElementsSchema.arguments, Zod.object, Zod.field,
    Zod.optional, Zod.boolean.
  rewrite Hflag. simpl.
  destruct (channel env (trace w) _ _) as [reply|]; simpl; [|reflexivity].
  destruct (nonEmptyArray reply); simpl; [|reflexivity].
  destruct (formatElementTextUnchecked _ _); reflexivity.
Qed.

(** X13. When the enhanced snapshot is asked for the elements and all three
    calls succeed, what it returns depends on the items of the answer.  If
    they all are what [interface ElementData] declares (or the answer is
    no array with items), it returns the image, the blocks of the aria
    snapshot and one more text block, the compact listing of the items or
    the sentence that none were found, and logs nothing.  If an item is
    [null] or [undefined], or has a text that is truthy and no string, the
    formatter throws inside the [try]: the tool still returns the image
    and the blocks of the aria snapshot, without an elements block, and
    logs the failure.  The enumeration it asks for never includes hidden
    elements. *)
Theorem enhanced_snapshot_with_elements (props : list (string * Js.Value))
    (env : Env) (w : World) (shot : Js.Value) (snap : ToolResult)
    (reply : Js.Value) :
  Js.get props "includeElements" = Js.Bool true ->
  channel env (trace w) "browser_screenshot" (Js.Object []) = Ok shot ->
  ariaSnapshot env (trace w ++ [screenshotMessage]) = Ok snap ->
  channel env (trace w ++ [screenshotMessage; CaptureAriaSnapshot])
    "browser_enumerate_elements"
    (Js.Object [("includeHidden", Js.Bool false)]) = Ok reply ->
  (forallb wellTypedElement (itemsOf reply) = true ->
   enhancedSnapshot.handle (Js.Object props) env w
   = (Ok (mkResult
            ((ImageBlock shot "image/png" :: content snap)
             ++ [TextBlock
                   (elementsHeading
                    +:+ (if nonEmptyArray reply
                         then formatElementText
                                (map asElementData (itemsOf reply)) false
                         else "No interactive elements found." +:+ Js.nl))])),
      mkWorld (heap w)
        (trace w ++ [screenshotMessage; CaptureAriaSnapshot;
                     enumerateMessage false])
        (console w)))
  /\ (existsb breaksFormatter (itemsOf reply) = true ->
      enhancedSnapshot.handle (Js.Object props) env w
      = (Ok (mkResult (ImageBlock shot "image/png" :: content snap)),
         mkWorld (heap w)
           (trace w ++ [screenshotMessage; CaptureAriaSnapshot;
                        enumerateMessage false])
           (console w ++ [enumerationFailureLabel]))).
Proof.
  intros Hflag Hshot Hsnap Henum.
  assert (Hrun : enhancedSnapshot.handle (Js.Object props) env w
    = match (if nonEmptyArray reply
             then formatElementTextUnchecked (itemsOf reply) false
             else Some ("No interactive elements found." +:+ Js.nl)) with
      | Some listing =>
          (Ok (mkResult
                 ((ImageBlock shot "image/png" :: content snap)
                  ++ [TextBlock (elementsHeading +:+ listing)])),
           mkWorld (heap w)
             (trace w ++ [screenshotMessage; CaptureAriaSnapshot;
                          enumerateMessage false])
             (console w))
      | None =>
          (Ok (mkResult (ImageBlock shot "image/png" :: content snap)),
           mkWorld (heap w)
             (trace w ++ [screenshotMessage; CaptureAriaSnapshot;
                          enumerateMessage false])
             (console w ++ [enumerationFailureLabel]))
      end).
  { unfoldHandlers.
    unfold EnhancedSnapshotSchema.arguments, Zod.object, Zod.field,
      Zod.optional. rewrite Hflag. simpl. rewrite Hshot. simpl.
    unfold screenshotMessage in *. rewrite Hsnap. simpl.
    rewrite <- !app_assoc. simpl. rewrite Henum. simpl.
    destruct (nonEmptyArray reply); simpl; [|reflexivity].
    destruct (formatElementTextUnchecked (itemsOf reply) false); reflexivity. }
  split.
  - intros Htyped. rewrite Hrun.
    rewrite (formatElementTextUnchecked_typed false _ Htyped).
    destruct (nonEmptyArray reply); reflexivity.
  - intros Hbreaks. rewrite Hrun.
    rewrite (existsb_nonEmptyArray reply Hbreaks).
    now rewrite (formatElementTextUnchecked_breaks false _ Hbreaks).
Qed.



(** X14. Whenever the enhanced snapshot returns a result, the result begins
    with the image of the screenshot and goes on with the blocks of the
    aria snapshot; after them comes nothing, or one text block, and that
    only if the elements were asked for. *)
Theorem enhanced_snapshot_result_shape (params : Js.Value)
    (args : EnhancedSnapshotArgs) (env : Env) (w : World) (r : ToolResult) :
  EnhancedSnapshotSchema.arguments params = Zod.Valid args ->
  fst (enhancedSnapshot.handle params env w) = Ok r ->
  exists (shot : Js.Value) (snap : ToolResult) (tail : list ContentBlock),
    channel env (trace w) "browser_screenshot" (Js.Object []) = Ok shot
    /\ ariaSnapshot env (trace w ++ [screenshotMessage]) = Ok snap
    /\ content r = (ImageBlock shot "image/png" :: content snap) ++ tail
    /\ (tail = []
        \/ exists text : string,
             tail = [TextBlock text] /\ includeElements args = Some true).
Proof.
  intros Hargs. unfoldHandlers. rewrite Hargs. simpl.
  destruct (channel env (trace w) _ _) as [shot|e] eqn:Hshot; simpl;
    [|discriminate].
  unfold screenshotMessage.
  destruct (ariaSnapshot env _) as [snap|e] eqn:Hsnap; simpl; [|discriminate].
  destruct (includeElements args) as [[|]|] eqn:Hflag; simpl.
  - assert (Hbare : exists (shot0 : Js.Value) (snap0 : ToolResult)
                       (tail : list ContentBlock),
              Ok shot = Ok shot0 /\ Ok snap = Ok snap0
              /\ ImageBlock shot "image/png" :: content snap
                 = (ImageBlock shot0 "image/png" :: content snap0) ++ tail
              /\ (tail = []
                  \/ exists text : string,
                       tail = [TextBlock text] /\ Some true = Some true)).
    { exists shot, snap, []. rewrite app_nil_r.
      split; [reflexivity|]. split; [reflexivity|]. split; [reflexivity|].
      now left. }
    assert (Hblock : forall text : string,
              exists (shot0 : Js.Value) (snap0 : ToolResult)
                     (tail : list ContentBlock),
                Ok shot = Ok shot0 /\ Ok snap = Ok snap0
                /\ (ImageBlock shot "image/png" :: content snap)
                   ++ [TextBlock text]
                   = (ImageBlock shot0 "image/png" :: content snap0) ++ tail
                /\ (tail = []
                    \/ exists text0 : string,
                         tail = [TextBlock text0] /\ Some true = Some true)).
    { intros text. exists shot, snap, [TextBlock text].
      split; [reflexivity|]. split; [reflexivity|]. split; [reflexivity|].
      right. exists text. split; reflexivity. }
    destruct (channel env _ "browser_enumerate_elements" _) as [reply|e];
      simpl.
    + destruct (nonEmptyArray reply); simpl.
      * destruct (formatElementTextUnchecked _ _); simpl; intros [= <-];
          simpl; [apply Hblock | exact Hbare].
      * intros [= <-]. simpl. apply Hblock.
    + intros [= <-]. simpl. exact Hbare.
  - intros [= <-]. exists shot, snap, []. simpl. rewrite app_nil_r.
    split; [reflexivity|]. split; [reflexivity|]. split; [reflexivity|].
    now left.
  - intros [= <-]. exists shot, snap, []. simpl. rewrite app_nil_r.
    split; [reflexivity|]. split; [reflexivity|]. split; [reflexivity|].
    now left.
Qed.

(** ** More on validation *)

(** X2. A tool looks at the arguments of its schema only: two argument objects
    that agree on them are treated alike, whatever else they carry. *)
Theorem unknown_arguments_are_ignored (p q : list (string * Js.Value))
    (env : Env) (w : World) :
  (Js.get p "includeHidden" = Js.get q "includeHidden" ->
   enumerateElements.handle (Js.Object p) env w
   = enumerateElements.handle (Js.Object q) env w)
  /\ (Js.get p "selector" = Js.get q "selector" ->
      Js.get p "description" = Js.get q "description" ->
      clickBySelector.handle (Js.Object p) env w
      = clickBySelector.handle (Js.Object q) env w)
  /\ (Js.get p "actionDescription" = Js.get q "actionDescription" ->
      Js.get p "selector" = Js.get q "selector" ->
      Js.get p "notes" = Js.get q "notes" ->
      teachSelector.handle (Js.Object p) env w
      = teachSelector.handle (Js.Object q) env w)
  /\ (Js.get p "includeElements" = Js.get q "includeElements" ->
      enhancedSnapshot.handle (Js.Object p) env w
      = enhancedSnapshot.handle (Js.Object q) env w).
Proof.
  repeat split.
  - intros H. unfold enumerateElements.handle, parse,
      EnumerateElementsSchema.arguments, Zod.object, Zod.field.
    now rewrite H.
  - intros H1 H2. unfold clickBySelector.handle, parse,
      ClickBySelectorSchema.arguments, Zod.object, Zod.field.
    now rewrite H1, H2.
  - intros H1 H2 H3. unfold teachSelector.handle, parse,
      TeachSelectorSchema.arguments, Zod.object, Zod.field.
    now rewrite H1, H2, H3.
  - intros H. unfold enhancedSnapshot.handle, parse,
      EnhancedSnapshotSchema.arguments, Zod.object, Zod.field.
    now rewrite H.
Qed.

(** X3. An optional argument that is given must have its type: notes that are
    neither absent nor a string ([null], say) make the teach tool fail with
    one issue under [notes], and a flag that is neither absent nor a
    boolean makes the enumerate tool fail with one issue under
    [includeHidden]; nothing is stored or sent. *)
Theorem optional_arguments_must_have_their_type
    (props : list (string * Js.Value)) (d t : string) (v : Js.Value)
    (env : Env) (w : World) :
  v <> Js.Undefined ->
  (Js.get props "actionDescription" = Js.Str d ->
   Js.get props "selector" = Js.Str t ->
   Js.get props "notes" = v ->
   (forall s : string, v <> Js.Str s) ->
   teachSelector.handle (Js.Object props) env w
   = (Throw (ZodError [Zod.mkIssue ["notes"] Zod.TString
                         (Zod.getParsedType v)]), w))
  /\ (Js.get props "includeHidden" = v ->
      (forall b : bool, v <> Js.Bool b) ->
      enumerateElements.handle (Js.Object props) env w
      = (Throw (ZodError [Zod.mkIssue ["includeHidden"] Zod.TBoolean
                            (Zod.getParsedType v)]), w)).
Proof.
  intros Hgiven. split.
  - intros Hd Ht Hn Hv. unfoldHandlers.
    unfold TeachSelectorSchema.arguments, Zod.object, Zod.field.
    rewrite Hd, Ht, Hn. simpl.
    destruct v; try reflexivity; [congruence | exfalso; eapply Hv; eauto].
  - intros Hn Hv. unfoldHandlers.
    unfold EnumerateElementsSchema.arguments, Zod.object, Zod.field.
    rewrite Hn. simpl.
    destruct v; try reflexivity; [congruence | exfalso; eapply Hv; eauto].
Qed.

(** ** More on the element formatter *)

Lemma substring_length (n : nat) (s : string) :
  String.length (String.substring 0 n s) = Nat.min n (String.length s).
Proof.
  revert n. induction s as [|c s IH]; intros [|n]; simpl; try reflexivity.
  now rewrite IH.
Qed.

(** X16. The preview of a text is the text cut to 50 characters, plus three
    dots if it was longer, between the dash and the two quotes: it is never
    longer than 58 characters, whatever the page sends. *)
Theorem preview_is_bounded (s : string) :
  String.length (preview s)
  = (5 + Nat.min 50 (String.length s)
     + (if (50 <? String.length s)%nat then 3 else 0))%nat
  /\ (String.length (preview s) <= 58)%nat.
Proof.
  assert (Hlen : String.length (preview s)
                 = (5 + Nat.min 50 (String.length s)
                    + (if (50 <? String.length s)%nat then 3 else 0))%nat).
  { unfold preview. cbv zeta. rewrite !append_length, substring_length.
    destruct (50 <? String.length s)%nat; simpl; lia. }
  split; [exact Hlen|]. rewrite Hlen.
  destruct (50 <? String.length s)%nat; lia.
Qed.

Lemma formatElement_ends_line (d : bool) (el : ElementData.t) (i : nat)
    (text : string) :
  exists body : string, formatElement d el i text = body +:+ Js.nl.
Proof. unfold formatElement. cbv zeta. eexists. reflexivity. Qed.

Lemma linesFrom_last (d : bool) (i : nat) (init : list ElementData.t)
    (el : ElementData.t) :
  linesFrom d i (init ++ [el])
  = linesFrom d i init +:+ formatElement d el (i + length init) EmptyString.
Proof.
  rewrite linesFrom_app, linesFrom_cons.
  unfold linesFrom at 2. simpl. now rewrite append_nil_r.
Qed.

(** X17. The listing is never empty and always ends with a line feed; the
    listing of a list with a last element is the listing of the elements
    before it followed by the line of that element, numbered with its
    place in the list. *)
Theorem listing_grows_line_by_line (d : bool) (elements : list ElementData.t)
    (el : ElementData.t) :
  (exists body : string, formatElementText elements d = body +:+ Js.nl)
  /\ formatElementText (elements ++ [el]) d
     = linesFrom d 0 elements
       +:+ formatElement d el (length elements) EmptyString
  /\ exists rest : string,
       formatElement d el (length elements) EmptyString
       = Js.natToString (length elements + 1) +:+ ". **" +:+ rest.
Proof.
  assert (Hlast : formatElementText (elements ++ [el]) d
                  = linesFrom d 0 elements
                    +:+ formatElement d el (length elements) EmptyString).
  { unfold formatElementText.
    replace (length (elements ++ [el]) =? 0)%nat with false
      by (symmetry; apply Nat.eqb_neq; rewrite length_app; simpl; lia).
    fold (linesFrom d 0 (elements ++ [el])). now rewrite linesFrom_last. }
  split; [|split; [exact Hlast|]].
  - destruct elements as [|e l] using rev_ind.
    + exists "No interactive elements found.". reflexivity.
    + clear IHl. unfold formatElementText.
      replace (length (l ++ [e]) =? 0)%nat with false
        by (symmetry; apply Nat.eqb_neq; rewrite length_app; simpl; lia).
      fold (linesFrom d 0 (l ++ [e])). rewrite linesFrom_last.
      destruct (formatElement_ends_line d e (0 + length l) EmptyString)
        as [body ->].
      exists (linesFrom d 0 l +:+ body). now rewrite append_assoc.
  - unfold formatElement. cbv zeta.
    destruct (ElementData.text el) as [s|];
      [destruct (Js.truthyStr (Some s))|]; destruct d;
      eexists; rewrite ?append_assoc; reflexivity.
Qed.

Lemma detailLine_absentIfEmpty (label : string) (o : option string) :
  detailLine label (absentIfEmpty o) = detailLine label o.
Proof.
  destruct o as [s|]; [|reflexivity]. simpl.
  destruct (String.eqb s EmptyString) eqn:E; simpl; [reflexivity|].
  now rewrite E.
Qed.

Lemma forEachIndexed_map {A B T : Type} (f : B -> nat -> T -> T)
    (g : A -> B) (h : A -> nat -> T -> T) (l : list A) (i : nat) (acc : T) :
  (forall a j t, f (g a) j t = h a j t) ->
  forEachIndexed f (map g l) i acc = forEachIndexed h l i acc.
Proof.
  intros Hext. revert i acc.
  induction l as [|a l IH]; intros i acc; simpl; [reflexivity|].
  now rewrite Hext, IH.
Qed.

Lemma formatElementText_map (g : ElementData.t -> ElementData.t)
    (d : bool) (elements : list ElementData.t) :
  (forall el i t, formatElement d (g el) i t = formatElement d el i t) ->
  formatElementText (map g elements) d = formatElementText elements d.
Proof.
  intros Hext. unfold formatElementText. rewrite length_map.
  destruct (length elements =? 0)%nat; [reflexivity|].
  now apply forEachIndexed_map.
Qed.

(** X18. A field that is the empty string is listed like a field that is not
    there (no empty placeholder line, no empty quotes), and the aria label
    is never listed.  The compact listing shows the tag, the text and the
    selector only. *)
Theorem listing_skips_blank_fields (elements : list ElementData.t) :
  (forall d : bool,
     formatElementText (map withoutBlanks elements) d
     = formatElementText elements d)
  /\ formatElementText (map essentials elements) false
     = formatElementText elements false.
Proof.
  split.
  - intros d. apply formatElementText_map. intros el i t.
    unfold formatElement, withoutBlanks. cbv zeta. simpl.
    rewrite !detailLine_absentIfEmpty.
    destruct (ElementData.text el) as [s|]; [|reflexivity]. simpl.
    destruct (String.eqb s EmptyString) eqn:E; simpl; [reflexivity|].
    now rewrite E.
  - apply formatElementText_map. intros el i t. reflexivity.
Qed.

(** ** More on the resource document *)

Lemma define_absent (o : list (string * Js.Value)) (key : string)
    (value : Js.Value) :
  ~ In key (map fst o) -> JsObject.define o key value = o ++ [(key, value)].
Proof.
  induction o as [|[k v] rest IH]; simpl; intros Hnotin; [reflexivity|].
  destruct (String.eqb k key) eqn:E.
  - apply String.eqb_eq in E. tauto.
  - f_equal. apply IH. tauto.
Qed.

Lemma collect_from_plain (stored : list (string * LearnedSelector))
    (data : list (string * Js.Value)) :
  List.NoDup (map fst data ++ JsMap.keys stored) ->
  (forall k, In k (JsMap.keys stored) -> k <> "__proto__") ->
  fold_left (fun data '(key, value) =>
               JsObject.assign data key
                 (createSelectorsResource.entryObject value))
    stored data
  = data ++ map (fun e => (fst e, createSelectorsResource.entryObject (snd e)))
              stored.
Proof.
  revert data. induction stored as [|[key value] rest IH]; intros data Hnd Hk;
    simpl in *; [now rewrite app_nil_r|].
  assert (Hkey : key <> "__proto__") by (apply Hk; now left).
  apply String.eqb_neq in Hkey.
  unfold JsObject.assign at 2. rewrite Hkey.
  assert (Hfresh : ~ In key (map fst data)).
  { apply NoDup_remove_2 in Hnd. rewrite in_app_iff in Hnd. tauto. }
  rewrite define_absent by exact Hfresh.
  rewrite IH.
  - now rewrite <- app_assoc.
  - rewrite map_app. simpl. rewrite <- app_assoc. simpl.
    apply NoDup_remove_1 in Hnd as Hnd'.
    apply NoDup_remove_2 in Hnd as Hnotin.
    clear - Hnd' Hnotin.
    induction (map fst data) as [|k0 l IHl]; simpl in *.
    + constructor; assumption.
    + apply List.NoDup_cons_iff in Hnd' as [Hk0 Hl].
      apply List.NoDup_cons_iff. split.
      * rewrite in_app_iff in *. simpl. intros [H|[H|H]]; [tauto| |tauto].
        apply Hnotin. left. auto.
      * apply IHl; [exact Hl|]. intros H. apply Hnotin. now right.
  - intros k Hin. apply Hk. now right.
Qed.

Section PlainProperties.
Context {V : Type}.

Lemma ownProperties_plain (props : list (string * V)) :
  (forall e, In e props -> JsObject.arrayIndex (fst e) = None) ->
  JsObject.ownProperties props = props.
Proof.
  intros Hplain. unfold JsObject.ownProperties, JsObject.named.
  induction props as [|[k v] rest IH]; [reflexivity|].
  pose proof (Hplain (k, v) (or_introl eq_refl)) as Hk. simpl in Hk.
  simpl. rewrite Hk. simpl.
  assert (Hrest : forall e, In e rest -> JsObject.arrayIndex (fst e) = None)
    by (intros e He; apply Hplain; now right).
  specialize (IH Hrest).
  destruct (JsObject.indexed rest) eqn:E; simpl in *; [now f_equal|].
  exfalso. destruct p as [n e].
  assert (Hin : In (n, e) (JsObject.indexed rest)) by (rewrite E; now left).
  apply indexed_In in Hin as [Hin Hidx]. rewrite (Hrest e Hin) in Hidx.
  discriminate.
Qed.

End PlainProperties.

Lemma written_entries (stored : list (string * LearnedSelector)) :
  JSON.written
    (map (fun kv => (fst kv, JSON.serialize JSON.gap (snd kv)))
       (map (fun e => (fst e, createSelectorsResource.entryObject (snd e)))
          stored))
  = map documentMember stored.
Proof.
  induction stored as [|[k v] rest IH]; [reflexivity|].
  cbn [map fst snd]. rewrite serialize_entry. cbn [JSON.written].
  now rewrite IH.
Qed.

(** X19. When no description of the store is an array index (a numeral such as
    [7]) or [__proto__], the resource document lists the records in the
    order of the store, which is the order of the listing: it is the JSON
    object with one member per record; for the empty store it is [{}]. *)
Theorem document_follows_store_order (w : World) (env : Env) (uri : string) :
  reachable w ->
  (forall k : string, In k (JsMap.keys (store w)) -> plainKey k) ->
  fst (selectorsResource_read uri env w)
  = Ok (learnedResource (documentJson (map documentMember (store w))))
  /\ (store w = [] ->
      fst (selectorsResource_read uri env w) = Ok (learnedResource "{}")).
Proof.
  intros Hr Hplain. apply reachable_wellFormed in Hr as [_ Hnd].
  assert (Hdoc : fst (selectorsResource_read uri env w)
                 = Ok (learnedResource
                         (documentJson (map documentMember (store w))))).
  { rewrite resource_text. unfold createSelectorsResource.collect.
    rewrite collect_from_plain;
      [| exact Hnd | intros k Hk; apply (Hplain k Hk)].
    simpl app. rewrite ownProperties_plain.
    - now rewrite written_entries.
    - intros e He. apply in_map_iff in He as (e1 & <- & He1).
      apply in_map_iff in He1 as (e0 & <- & He0). simpl.
      apply (Hplain (fst e0)). apply in_map. exact He0. }
  split; [exact Hdoc|]. intros Hempty. rewrite Hdoc, Hempty. reflexivity.
Qed.

Lemma collect_from_no_proto (stored : list (string * LearnedSelector))
    (data : list (string * Js.Value)) (k : string) (o : Js.Value) :
  In (k, o)
    (fold_left (fun data '(key, value) =>
                  JsObject.assign data key
                    (createSelectorsResource.entryObject value))
       stored data) ->
  In (k, o) data \/ k <> "__proto__".
Proof.
  revert data. induction stored as [|[key value] rest IH]; intros data; simpl.
  - now left.
  - intros Hin. apply IH in Hin as [Hin|Hne]; [|now right].
    unfold JsObject.assign in Hin.
    destruct (String.eqb key "__proto__") eqn:E; [now left|].
    apply define_In in Hin as [[-> _]|Hin]; [|now left].
    right. now apply String.eqb_neq.
Qed.

(** X20. Whatever has been taught, the members of the resource document are
    the records of the store whose description is not [__proto__]: each of
    them has its member, with its own target, notes and time, and the
    document has no other member. *)
Theorem document_members_are_the_records (w : World) (env : Env)
    (uri : string) :
  reachable w ->
  exists members : list string,
    fst (selectorsResource_read uri env w)
    = Ok (learnedResource (documentJson members))
    /\ forall m : string,
         In m members
         <-> exists entry : string * LearnedSelector,
               In entry (store w)
               /\ fst entry <> "__proto__"
               /\ m = documentMember entry.
Proof.
  intros Hr. apply reachable_wellFormed in Hr as [_ Hnd].
  eexists. split; [apply resource_text|].
  intros m. rewrite written_In. split.
  - intros (k & s & Hin & ->).
    apply ownProperties_In, in_map_iff in Hin as ([k' o] & [= Hk Hs] & Hin).
    simpl in Hk, Hs. subst k'.
    pose proof (collect_from_no_proto _ _ _ _ Hin) as [[]|Hne].
    apply collect_sound in Hin as (value & Hin & ->).
    rewrite serialize_entry in Hs. injection Hs as <-.
    exists (k, value). auto.
  - intros ([k value] & Hin & Hne & ->). simpl in Hne.
    exists k, (entryText value). split; [|reflexivity].
    apply ownProperties_In, in_map_iff.
    exists (k, createSelectorsResource.entryObject value).
    cbn [fst snd]. rewrite serialize_entry. split; [reflexivity|].
    pose proof (collect_from_complete (store w) [] k value Hnd Hin Hne)
      as Hget.
    fold (createSelectorsResource.collect (store w)) in Hget.
    rewrite <- Hget. apply get_In_props. rewrite Hget. discriminate.
Qed.

(** ** The further properties at work on sample inputs *)

Lemma rejected_arguments_change_nothing_witness :
  teachSelector.handle Js.Null (offline 0) initialWorld
  = (Throw (ZodError [Zod.mkIssue [] Zod.TObject Zod.TNull]), initialWorld)
  /\ clickBySelector.handle (Js.Object []) emptyPage initialWorld
     = (Throw (ZodError [requiredString "selector"]), initialWorld).
Proof.
  split.
  - exact (proj1 (proj2 (proj2
      (rejected_arguments_change_nothing Js.Null
         [Zod.mkIssue [] Zod.TObject Zod.TNull] (offline 0) initialWorld)))
      eq_refl).
  - exact (proj1 (proj2
      (rejected_arguments_change_nothing (Js.Object [])
         [requiredString "selector"] emptyPage initialWorld))
      eq_refl).
Defined.

Lemma store_changes_only_by_teach_witness :
  exists (params : Js.Value) (args : TeachSelectorArgs),
    Teach (teachParams "x" "a" None) = Teach params
    /\ TeachSelectorSchema.arguments params = Zod.Valid args
    /\ store (after (Teach (teachParams "x" "a" None)) (offline 7)
                initialWorld)
       = JsMap.set (store initialWorld) (actionDescription args)
           (mkLearned (teach_selector args) (teach_notes args)
              (clock (offline 7))).
Proof.
  apply (store_changes_only_by_teach (Teach (teachParams "x" "a" None))
           (offline 7) initialWorld reachable_initial).
  vm_compute. discriminate.
Defined.

Lemma keys_only_appended_witness :
  exists added : list string,
    JsMap.keys
      (store
         (afterAll
            [(Teach (teachParams "search" "#q" None), offline 2);
             (Teach (teachParams "login" "#b" None), offline 3)]
            (after (Teach (teachParams "login" "#a" None)) (offline 1)
               initialWorld)))
    = JsMap.keys
        (store (after (Teach (teachParams "login" "#a" None)) (offline 1)
                  initialWorld))
      ++ added
    /\ (length added <= 2)%nat
    /\ forall k : string,
         In k added ->
         ~ In k (JsMap.keys
                   (store (after (Teach (teachParams "login" "#a" None))
                             (offline 1) initialWorld))).
Proof.
  apply (keys_only_appended
           [(Teach (teachParams "search" "#q" None), offline 2);
            (Teach (teachParams "login" "#b" None), offline 3)]).
  apply reachable_after, reachable_initial.
Defined.

Lemma record_persists_witness :
  JsMap.get
    (store
       (afterAll
          [(Teach (teachParams "search" "#q" None), offline 2);
           (Enumerate (Js.Object []), emptyPage);
           (Teach Js.Null, offline 3);
           (ReadResource "selectors://learned", offline 4)]
          (after (Teach (teachParams "login" "#a" (Some "n"))) (offline 1)
             initialWorld)))
    "login"
  = Some (mkLearned "#a" (Some "n") 1).
Proof.
  apply record_persists.
  - apply reachable_after, reachable_initial.
  - reflexivity.
  - repeat constructor; simpl; try tauto.
    + intros (args & Hargs & Hname). vm_compute in Hargs.
      injection Hargs as <-. discriminate Hname.
    + intros (args & Hargs & _). discriminate Hargs.
Defined.

Lemma store_lists_each_taught_description_once_witness :
  JsMap.keys (store (afterAll teachingSeries initialWorld))
  = ["login"; "search"]
  /\ JsMap.size (store (afterAll teachingSeries initialWorld)) = 2%nat
  /\ JsMap.count (store (afterAll teachingSeries initialWorld)) "login"
     = 1%nat
  /\ JsMap.count (store (afterAll teachingSeries initialWorld)) "logout"
     = 0%nat.
Proof.
  destruct (store_lists_each_taught_description_once teachingSeries
              initialWorld reachable_initial)
    as (Hkeys & Hsize & _ & _ & Hcount).
  split; [exact Hkeys|]. split; [exact Hsize|].
  split; [exact (Hcount "login") | exact (Hcount "logout")].
Defined.

Lemma teach_stores_what_it_is_given_witness :
  JsMap.get
    (store (after (Teach (teachParams EmptyString EmptyString None))
              (offline 5) initialWorld))
    EmptyString
  = Some (mkLearned EmptyString None 5).
Proof.
  exact (proj1 (proj2
    (teach_stores_what_it_is_given EmptyString EmptyString None (offline 5)
       initialWorld reachable_initial))).
Defined.

Lemma click_sends_selector_then_snapshots_witness :
  fst (clickBySelector.handle
         (Js.Object [("selector", Js.Str "#go");
                     ("description", Js.Str EmptyString)])
         pageWithTwoElements initialWorld)
  = Ok (mkResult [TextBlock "Clicked element with selector: #go";
                  TextBlock "- document"]).
Proof.
  exact (proj2
    (click_sends_selector_then_snapshots
       (Js.Object [("selector", Js.Str "#go");
                   ("description", Js.Str EmptyString)])
       (mkClickArgs "#go" (Some EmptyString)) pageWithTwoElements
       initialWorld eq_refl)
    (Js.Str "iVBORw0KGgo=") (mkResult [TextBlock "- document"])
    eq_refl eq_refl).
Defined.

Lemma enumerate_output_by_reply_witness :
  fst (enumerateElements.handle (Js.Object []) pageWithTwoElements
         initialWorld)
  = Ok (mkResult
          [TextBlock
             ("## Enumerated Interactive Elements" +:+ Js.nl +:+ Js.nl
              +:+ "1. **button** - " +:+ Js.dq +:+ "Login" +:+ Js.dq +:+ Js.nl
              +:+ "   - CSS Selector: `#login`" +:+ Js.nl
              +:+ "2. **a**" +:+ Js.nl
              +:+ "   - CSS Selector: `a.help`" +:+ Js.nl)])
  /\ enumerateElements.handle (Js.Object []) (pageAnswering elementsWithNull)
       initialWorld
     = (Throw TypeError, mkWorld (heap initialWorld) [enumerateMessage false] [])
  /\ enumerateElements.handle (Js.Object [])
       (pageAnswering elementWithNumericText) initialWorld
     = (Throw TypeError, mkWorld (heap initialWorld) [enumerateMessage false] []).
Proof.
  split; [|split].
  - exact (proj1 (proj2 (proj2
      (enumerate_output_by_reply (Js.Object []) (mkEnumerateArgs None)
         pageWithTwoElements initialWorld twoElements eq_refl eq_refl)))
      _ _ eq_refl eq_refl).
  - exact (proj2 (proj2 (proj2
      (enumerate_output_by_reply (Js.Object []) (mkEnumerateArgs None)
         (pageAnswering elementsWithNull) initialWorld elementsWithNull
         eq_refl eq_refl)))
      _ eq_refl eq_refl).
  - exact (proj2 (proj2 (proj2
      (enumerate_output_by_reply (Js.Object []) (mkEnumerateArgs None)
         (pageAnswering elementWithNumericText) initialWorld
         elementWithNumericText eq_refl eq_refl)))
      _ eq_refl eq_refl).
Defined.

Lemma enumerate_passes_flag_on_witness :
  trace (snd (enumerateElements.handle
                (Js.Object [("includeHidden", Js.Bool true)]) (offline 0)
                initialWorld))
  = [enumerateMessage true].
Proof.
  exact (enumerate_passes_flag_on [("includeHidden", Js.Bool true)] true
           (offline 0) initialWorld eq_refl).
Defined.

Lemma enhanced_snapshot_with_elements_witness :
  enhancedSnapshot.handle
    (Js.Object [("includeElements", Js.Bool true);
                ("includeHidden", Js.Bool true)])
    pageWithTwoElements initialWorld
  = (Ok (mkResult
           [ImageBlock (Js.Str "iVBORw0KGgo=") "image/png";
            TextBlock "- document";
            TextBlock
              (Js.nl +:+ "## Interactive Elements" +:+ Js.nl +:+ Js.nl
               +:+ "1. **button** - " +:+ Js.dq +:+ "Login" +:+ Js.dq
               +:+ " (`#login`)" +:+ Js.nl
               +:+ "2. **a** (`a.help`)" +:+ Js.nl)]),
     mkWorld (heap initialWorld)
       [screenshotMessage; CaptureAriaSnapshot; enumerateMessage false] [])
  /\ enhancedSnapshot.handle (Js.Object [("includeElements", Js.Bool true)])
       (pageAnswering elementsWithNull) initialWorld
     = (Ok (mkResult
              [ImageBlock (Js.Str "iVBORw0KGgo=") "image/png";
               TextBlock "- document"]),
        mkWorld (heap initialWorld)
          [screenshotMessage; CaptureAriaSnapshot; enumerateMessage false]
          ["Failed to enumerate elements:"]).
Proof.
  split.
  - exact (proj1
      (enhanced_snapshot_with_elements
         [("includeElements", Js.Bool true); ("includeHidden", Js.Bool true)]
         pageWithTwoElements initialWorld (Js.Str "iVBORw0KGgo=")
         (mkResult [TextBlock "- document"]) twoElements
         eq_refl eq_refl eq_refl eq_refl)
      eq_refl).
  - exact (proj2
      (enhanced_snapshot_with_elements
         [("includeElements", Js.Bool true)]
         (pageAnswering elementsWithNull) initialWorld (Js.Str "iVBORw0KGgo=")
         (mkResult [TextBlock "- document"]) elementsWithNull
         eq_refl eq_refl eq_refl eq_refl)
      eq_refl).
Defined.

Lemma enhanced_snapshot_result_shape_witness :
  exists (shot : Js.Value) (snap : ToolResult) (tail : list ContentBlock),
    channel pageWithoutEnumeration (trace initialWorld) "browser_screenshot"
      (Js.Object []) = Ok shot
    /\ ariaSnapshot pageWithoutEnumeration
         (trace initialWorld ++ [screenshotMessage]) = Ok snap
    /\ [ImageBlock (Js.Str "iVBORw0KGgo=") "image/png";
        TextBlock "- document"]
       = (ImageBlock shot "image/png" :: content snap) ++ tail
    /\ (tail = []
        \/ exists text : string,
             tail = [TextBlock text]
             /\ includeElements (mkEnhancedArgs (Some true)) = Some true).
Proof.
  exact (enhanced_snapshot_result_shape
           (Js.Object [("includeElements", Js.Bool true)])
           (mkEnhancedArgs (Some true)) pageWithoutEnumeration initialWorld
           (mkResult [ImageBlock (Js.Str "iVBORw0KGgo=") "image/png";
                      TextBlock "- document"])
           eq_refl eq_refl).
Defined.

Lemma document_follows_store_order_witness :
  fst (selectorsResource_read "selectors://learned" (offline 3)
         (after (Teach (teachParams "search" "#q" None)) (offline 2)
            (after (Teach (teachParams "login btn" "#a" (Some "n1")))
               (offline 1) initialWorld)))
  = Ok (learnedResource
          (documentJson
             [documentMember ("login btn", mkLearned "#a" (Some "n1") 1);
              documentMember ("search", mkLearned "#q" None 2)])).
Proof.
  refine (proj1 (document_follows_store_order _ (offline 3)
                   "selectors://learned" _ _)).
  - apply reachable_after, reachable_after, reachable_initial.
  - intros k Hk. change (In k ["login btn"; "search"]) in Hk.
    destruct Hk as [<-|[<-|[]]]; (split; [reflexivity | discriminate]).
Defined.

Lemma document_members_are_the_records_witness :
  store worldWithProto
  = [("login btn", mkLearned "#a" (Some "n1") 1);
     ("__proto__", mkLearned "#p" None 2)]
  /\ exists members : list string,
       fst (selectorsResource_read "selectors://learned" (offline 3)
              worldWithProto)
       = Ok (learnedResource (documentJson members))
       /\ In (documentMember ("login btn", mkLearned "#a" (Some "n1") 1))
            members
       /\ ~ In (documentMember ("__proto__", mkLearned "#p" None 2)) members.
Proof.
  split; [reflexivity|].
  destruct (document_members_are_the_records worldWithProto (offline 3)
              "selectors://learned"
              (reachable_after _ _ _
                 (reachable_after _ _ _ reachable_initial)))
    as (members & Hread & Hmembers).
  exists members. split; [exact Hread|]. split.
  - apply Hmembers.
    exists ("login btn", mkLearned "#a" (Some "n1") 1).
    split; [left; reflexivity|]. split; [discriminate | reflexivity].
  - intros Hin. apply Hmembers in Hin as (entry & Hentry & Hkey & Hmember).
    destruct Hentry as [<-|[<-|[]]].
    + discriminate Hmember.
    + now apply Hkey.
Defined.

Lemma taught_entry_is_shown_witness :
  let value := mkLearned "#a" (Some "n1") (clock (offline 1)) in
  let w' := after (Teach (teachParams "login btn" "#a" (Some "n1")))
              (offline 1) initialWorld in
  (exists before after : list (string * LearnedSelector),
     store w' = before ++ ("login btn", value) :: after
     /\ fst (getLearnedSelectors.handle Js.Undefined (offline 2) w')
        = Ok (mkResult
                [TextBlock
                   (listingHeader +:+ bullets before
                    +:+ getLearnedSelectors.bullet "login btn" value
                    +:+ bullets after)]))
  /\ (exists members : list string,
        fst (selectorsResource_read "selectors://learned" (offline 2) w')
        = Ok (learnedResource (documentJson members))
        /\ In (jsonMember "login btn" (entryText value)) members).
Proof.
  apply (taught_entry_is_shown initialWorld (offline 1) (offline 2)
           "login btn" "#a" (Some "n1") Js.Undefined "selectors://learned"
           reachable_initial).
  discriminate.
Defined.

Lemma unknown_arguments_are_ignored_witness :
  teachSelector.handle
    (Js.Object [("actionDescription", Js.Str "login");
                ("selector", Js.Str "#a"); ("force", Js.Bool true)])
    (offline 1) initialWorld
  = teachSelector.handle (teachParams "login" "#a" None) (offline 1)
      initialWorld.
Proof.
  exact (proj1 (proj2 (proj2
    (unknown_arguments_are_ignored
       [("actionDescription", Js.Str "login"); ("selector", Js.Str "#a");
        ("force", Js.Bool true)]
       [("actionDescription", Js.Str "login"); ("selector", Js.Str "#a")]
       (offline 1) initialWorld)))
    eq_refl eq_refl eq_refl).
Defined.

Lemma optional_arguments_must_have_their_type_witness :
  teachSelector.handle
    (Js.Object [("actionDescription", Js.Str "login");
                ("selector", Js.Str "#a"); ("notes", Js.Null)])
    (offline 1) initialWorld
  = (Throw (ZodError [Zod.mkIssue ["notes"] Zod.TString Zod.TNull]),
     initialWorld).
Proof.
  refine (proj1
    (optional_arguments_must_have_their_type
       [("actionDescription", Js.Str "login"); ("selector", Js.Str "#a");
        ("notes", Js.Null)]
       "login" "#a" Js.Null (offline 1) initialWorld _)
    eq_refl eq_refl eq_refl _); discriminate.
Defined.
